(** * k6-example: the load-test scripts and the mock API, embedded in Rocq

    The development follows the repository's layout:

    - [Js]      the fragment of the host language the scripts rely on
                (values, truthiness, property access, strict equality,
                insertion-ordered [Map]) and a state-and-exception monad;
    - [Api]     the Next.js route handlers ([posts/[id]/view],
                [posts/[id]/like], [users]);
    - [Stress]  [tests/k6/stress.js]: status classification and advice;
    - [Spike]   [tests/k6/spike.js]: scenarios, the spike/recovery
                bookkeeping of the default function, the report advice;
    - [Soak]    [tests/k6/soak.js]: cache, baselines, stability verdict.

    JavaScript numbers are modelled by exact numbers: integers ([Z]) where
    the script only ever holds integers (millisecond clock readings and
    their differences, 0/1 observations, counters), rationals ([Q])
    elsewhere.  The metrics handed to the report functions are finite; a
    division the scripts perform yields a [Js.Num], which also has the
    infinities and NaN of a division by zero.  Rounding is not modelled. *)

From Stdlib Require Import ZArith QArith Qround Lqa Ascii String List Lia.
From stdpp Require Import base option gmap strings list fin_maps pretty sorting.

Open Scope Z_scope.
Open Scope string_scope.
Open Scope list_scope.

(* ===================================================================== *)
(** ** The host language                                                  *)
(* ===================================================================== *)

Module Js.

(** Run-time values, as [JSON.parse] and property access produce them. *)
#[local] Unset Elimination Schemes.
Inductive Val : Type :=
| VUndef
| VNull
| VBool (b : bool)
| VNum (q : Q)
| VStr (s : string)
| VArr (items : list Val)
| VObj (fields : list (string * Val)).
#[local] Set Elimination Schemes.

(** [!!v] *)
Definition truthy (v : Val) : bool :=
  match v with
  | VUndef | VNull => false
  | VBool b => b
  | VNum q => negb (Qeq_bool q 0)
  | VStr s => negb (String.eqb s "")
  | VArr _ | VObj _ => true
  end.

Fixpoint assoc {A : Type} (k : string) (l : list (string * A)) : option A :=
  match l with
  | [] => None
  | (k', v) :: l' => if String.eqb k k' then Some v else assoc k l'
  end.

(** [v.k] for the ordinary data keys the scripts read ([success], [data],
    [title], [content], [name], [email], [avatar]): a [TypeError] on
    [null] and [undefined], [undefined] on primitives and arrays, the
    own property on objects. *)
Definition get (v : Val) (k : string) : option Val :=
  match v with
  | VUndef | VNull => None
  | VObj fields => Some (default VUndef (assoc k fields))
  | _ => Some VUndef
  end.

(** [a === b]. Arrays and objects compare by identity; two values that
    come from different [JSON.parse] calls are never the same object. *)
Definition strict_eq (a b : Val) : bool :=
  match a, b with
  | VUndef, VUndef => true
  | VNull, VNull => true
  | VBool x, VBool y => Bool.eqb x y
  | VNum x, VNum y => Qeq_bool x y
  | VStr x, VStr y => String.eqb x y
  | _, _ => false
  end.

(** [a < b] and [a > b] on numbers. *)
Definition ltb (a b : Q) : bool := negb (Qle_bool b a).
Definition gtb (a b : Q) : bool := ltb b a.

(** [x || d] where [x] is a number or [undefined]: [undefined] and [0]
    both give [d]. *)
Definition num_or (x : option Q) (d : Q) : Q :=
  match x with
  | Some q => if Qeq_bool q 0 then d else q
  | None => d
  end.

(** The result of a division: a finite number, an infinity or NaN. *)
Inductive Num : Type := Fin (q : Q) | PosInf | NegInf | NaN.

(** [a / b]. A zero divisor is the positive zero here: the scripts divide
    by differences of clock readings and by stored readings. *)
Definition div (a b : Q) : Num :=
  if Qeq_bool b 0 then
    if ltb 0 a then PosInf else if ltb a 0 then NegInf else NaN
  else Fin (a / b).

(** [x * k] for a positive constant [k]. *)
Definition times (x : Num) (k : Q) : Num :=
  match x with
  | Fin q => Fin (q * k)
  | other => other
  end.

(** [x < c] and [x > c] against a finite constant. *)
Definition num_ltb (x : Num) (c : Q) : bool :=
  match x with
  | Fin q => ltb q c
  | NegInf => true
  | PosInf | NaN => false
  end.

Definition num_gtb (x : Num) (c : Q) : bool :=
  match x with
  | Fin q => gtb q c
  | PosInf => true
  | NegInf | NaN => false
  end.

(** [Math.floor] *)
Definition Math_floor (q : Q) : Z := Qfloor q.

(** The line feed of ['\n'], and [lines.join('\n')]. *)
Definition nl : string := String (Ascii.ascii_of_nat 10) "".

Fixpoint join (sep : string) (l : list string) : string :=
  match l with
  | [] => ""
  | [x] => x
  | x :: l' => x +:+ sep +:+ join sep l'
  end.

(** *** Completion records: a computation returns or throws, and in both
    cases leaves a world behind. *)
Inductive Res (A : Type) : Type :=
| Ok (a : A)
| Throw (e : string).
Arguments Ok {A} a.
Arguments Throw {A} e.

Definition Eff (W A : Type) : Type := W → Res A * W.

Definition eff_ret {W A} (a : A) : Eff W A := λ w, (Ok a, w).

Definition eff_bind {W A B} (f : A → Eff W B) (m : Eff W A) : Eff W B :=
  λ w, match m w with
       | (Ok a, w') => f a w'
       | (Throw e, w') => (Throw e, w')
       end.

#[export] Instance eff_mret {W} : MRet (Eff W) := @eff_ret W.
#[export] Instance eff_mbind {W} : MBind (Eff W) := @eff_bind W.

Definition throw {W A} (e : string) : Eff W A := λ w, (Throw e, w).

(** [try { m } catch (e) { h e }] *)
Definition try_catch {W A} (m : Eff W A) (h : string → Eff W A) : Eff W A :=
  λ w, match m w with
       | (Throw e, w') => h e w'
       | r => r
       end.

Definition gets {W A} (f : W → A) : Eff W A := λ w, (Ok (f w), w).
Definition modify {W} (f : W → W) : Eff W unit := λ w, (Ok tt, f w).

(** Lift a partial host operation: [None] is a thrown error. *)
Definition or_throw {W A} (e : string) (o : option A) : Eff W A :=
  match o with
  | Some a => mret a
  | None => throw e
  end.

Definition or_type_error {W A} (o : option A) : Eff W A :=
  or_throw "TypeError" o.

(** [xs.forEach(f)] *)
Fixpoint for_each {W A} (f : A → Eff W unit) (xs : list A) : Eff W unit :=
  match xs with
  | [] => mret tt
  | x :: xs' => f x;; for_each f xs'
  end.


(** *** [Map]: keys in insertion order; [set] on a present key replaces
    the value in place, on an absent key appends. *)
Section OrderedMap.
Context {V : Type}.

Fixpoint map_set (k : string) (v : V) (m : list (string * V)) : list (string * V) :=
  match m with
  | [] => [(k, v)]
  | (k', v') :: m' =>
      if String.eqb k k' then (k, v) :: m' else (k', v') :: map_set k v m'
  end.

Fixpoint map_delete (k : string) (m : list (string * V)) : list (string * V) :=
  match m with
  | [] => []
  | (k', v') :: m' =>
      if String.eqb k k' then m' else (k', v') :: map_delete k m'
  end.

Definition map_keys (m : list (string * V)) : list string := m.*1.
Definition map_size (m : list (string * V)) : Z := Z.of_nat (length m).
End OrderedMap.

(** *** Further host operations used by the routes *)

(** [Math.ceil] on the result of a division. *)
Definition Math_ceil (x : Num) : Num :=
  match x with
  | Fin q => Fin (inject_Z (Qceiling q))
  | other => other
  end.

(** The integer part, as [new Date(t)] takes it of its argument. *)
Definition trunc (q : Q) : Z := if ltb q 0 then Qceiling q else Qfloor q.

(** [xs.sort(compare)]. The sort is stable and the comparators of the
    routes are differences of integer keys, so the result is the one list
    that is ordered by the key and keeps equal keys in their order. *)
Fixpoint insert_sorted {A} (compare : A → A → Z) (x : A) (l : list A) : list A :=
  match l with
  | [] => [x]
  | y :: l' =>
      if Z.leb (compare x y) 0 then x :: y :: l'
      else y :: insert_sorted compare x l'
  end.

Definition sort {A} (compare : A → A → Z) (l : list A) : list A :=
  foldr (insert_sorted compare) [] l.

(** [xs.slice(start, end)]: NaN counts as 0, a negative index counts from
    the end, and both are clamped to the list. *)
Definition relative_index (len : Z) (k : option Z) : Z :=
  match k with
  | None => 0
  | Some k => if Z.ltb k 0 then Z.max (len + k) 0 else Z.min k len
  end.

Definition slice {A} (l : list A) (start end_ : option Z) : list A :=
  let len := Z.of_nat (length l) in
  let from := relative_index len start in
  let to := relative_index len end_ in
  take (Z.to_nat (to - from)) (drop (Z.to_nat from) l).

(** [s.includes(sub)] *)
Fixpoint includes (s sub : string) : bool :=
  String.prefix sub s ||
  match s with
  | EmptyString => false
  | String _ s' => includes s' sub
  end.

(** [xs.filter(p)] where [p] may throw: [None] is the thrown error. *)
Fixpoint filter_throwing {A} (p : A → option bool) (xs : list A) : option (list A) :=
  match xs with
  | [] => Some []
  | x :: xs' =>
      match p x with
      | None => None
      | Some keep =>
          match filter_throwing p xs' with
          | None => None
          | Some rest => Some (if keep then x :: rest else rest)
          end
      end
  end.

(** The value of a Counter, and the number of failures of a Rate that was
    fed 0 and 1: the sum of what was added. *)
Definition total (samples : list Z) : Z := foldr Z.add 0 samples.

(** [s.repeat(n)] *)
Fixpoint repeat_string (s : string) (n : nat) : string :=
  match n with
  | O => ""
  | S n' => s +:+ repeat_string s n'
  end.

End Js.

Import Js.

(* ===================================================================== *)
(** ** The mock API                                                       *)
(* ===================================================================== *)

Module Api.

(** [NextResponse.json(body, { status })]; the status defaults to 200. *)
Record Response (T : Type) : Type := mkResponse {
  status : Z;
  success : bool;
  data : option T;
  error : option string;
}.
Arguments mkResponse {T} _ _ _ _.
Arguments status {T} _.
Arguments success {T} _.
Arguments data {T} _.
Arguments error {T} _.

(** *** [app/api/posts/[id]/view/route.ts] and [.../like/route.ts]

    Each route owns a module-level [Map<string, number>]; nothing is ever
    deleted from it and no key is checked against the posts. *)

(** [counts.get(id) || 0]: [undefined] and [0] both give [0]. *)
Definition get_or_zero (counts : gmap string Z) (id : string) : Z :=
  match counts !! id with
  | Some n => if Z.eqb n 0 then 0 else n
  | None => 0
  end.

Module View.
Record Data : Type := mkData { views : Z }.

Definition POST (id : string) (viewCounts : gmap string Z)
  : Response Data * gmap string Z :=
  let currentViews := get_or_zero viewCounts id in
  let viewCounts' := <[id := currentViews + 1]> viewCounts in
  (mkResponse 200 true (Some (mkData (currentViews + 1))) None, viewCounts').
End View.

Module Like.
Record Data : Type := mkData { likes : Z }.

Definition POST (id : string) (likeCounts : gmap string Z)
  : Response Data * gmap string Z :=
  let currentLikes := get_or_zero likeCounts id in
  let likeCounts' := <[id := currentLikes + 1]> likeCounts in
  (mkResponse 200 true (Some (mkData (currentLikes + 1))) None, likeCounts').
End Like.

(** *** The users route *)
Module Users.

Record User : Type := mkUser {
  id : string;
  name : Val;
  email : Val;
  avatar : Val;
  createdAt : Z;
}.

Record World : Type := mkWorld {
  users : list User;
  ticks : nat;         (* clock readings taken so far *)
}.

Section Handler.
(** The wall clock: the [n]-th reading of [Date.now()]. *)
Variable clock : nat → Z.

Definition Date_now : Eff World Z :=
  λ w, (Ok (clock (ticks w)), mkWorld (users w) (S (ticks w))).

Definition users_push (u : User) : Eff World unit :=
  modify (λ w, mkWorld (users w ++ [u]) (ticks w)).

(** [users.some(u => u.email === e)] *)
Definition email_taken (us : list User) (e : Val) : bool :=
  existsb (λ u, strict_eq (email u) e) us.

(** [request] is what [await request.json()] yields: a value, or
    [None] when the promise rejects. *)
Definition POST (request : option Val) : Eff World (Response User) :=
  try_catch
    (body ← or_throw "SyntaxError" request;
     body_name ← or_type_error (get body "name");
     body_email ← or_type_error (get body "email");
     if negb (truthy body_name) || negb (truthy body_email) then
       mret (mkResponse 400 false None (Some "Missing required fields"))
     else
       us ← gets users;
       if email_taken us body_email then
         mret (mkResponse 409 false None (Some "Email already exists"))
       else
         t_id ← Date_now;
         body_avatar ← or_type_error (get body "avatar");
         avatar ←
           (if truthy body_avatar then mret body_avatar
            else t ← Date_now;
                 mret (VStr ("https://i.pravatar.cc/150?img=" +:+ pretty t)));
         t_created ← Date_now;
         let newUser :=
           mkUser ("user-" +:+ pretty t_id) body_name body_email avatar t_created in
         users_push newUser;;
         mret (mkResponse 201 true (Some newUser) None))
    (λ _, mret (mkResponse 400 false None (Some "Invalid request body"))).

End Handler.

Section Search.
(** The host's [String.prototype.toLowerCase]. *)
Variable toLowerCase : string → string.

(** [v.toLowerCase()]: only a string has the method. *)
Definition lower (v : Val) : option string :=
  match v with
  | VStr s => Some (toLowerCase s)
  | _ => None
  end.

(** The callback of [users.filter] in [GET]. *)
Definition matches_search (search : string) (user : User) : option bool :=
  match lower (name user) with
  | None => None
  | Some n =>
      if includes n (toLowerCase search) then Some true
      else match lower (email user) with
           | None => None
           | Some e => Some (includes e (toLowerCase search))
           end
  end.

(** [search] is [searchParams.get('search')]: [None] when absent. The
    route has no [try]: a thrown error leaves it. *)
Definition GET (search : option string) : Eff World (Response (list User)) :=
  us ← gets users;
  filteredUsers ←
    match search with
    | Some s =>
        if negb (String.eqb s "") then
          or_type_error (filter_throwing (matches_search s) us)
        else mret us
    | None => mret us
    end;
  mret (mkResponse 200 true (Some filteredUsers) None).

End Search.

(** Vocabulary for statements about a request: the body carries a given
    field (present and truthy), it carries both required fields, and the
    email it submits. *)
Definition has_field (body : Val) (k : string) : bool :=
  match get body k with
  | Some v => truthy v
  | None => false
  end.

Definition complete (request : option Val) : bool :=
  match request with
  | Some body => has_field body "name" && has_field body "email"
  | None => false
  end.

Definition submitted_email (request : option Val) : Val :=
  default VUndef (request ≫= λ body, get body "email").

End Users.

(** *** The posts: the list route and the route of one post

    Each of the two route files builds its own twenty posts at load time
    and keeps them in a store of its own. *)

Record Post : Type := mkPost {
  post_id : string;
  post_title : Val;
  post_content : Val;
  post_authorId : Val;
  post_views : Z;
  post_likes : Z;
  post_createdAt : Z;
  post_updatedAt : Z;
}.

(** The [i]-th element ([i] from 0) of
    [Array.from({ length: n }, (_, i) => ({ ... }))]: three random draws
    and two readings of the clock each. *)
Definition seed_post (random : nat → Q) (clock : nat → Z) (content : nat → string)
    (i : nat) : Post :=
  let number := pretty (Z.of_nat i + 1) in
  mkPost ("post-" +:+ number)
         (VStr ("Performance Test Post " +:+ number))
         (VStr (content i))
         (VStr ("user-" +:+ pretty (Z.of_nat i `mod` 5 + 1)))
         (Math_floor (random (3 * i)%nat * 1000)%Q)
         (Math_floor (random (3 * i + 1)%nat * 100)%Q)
         (trunc (inject_Z (clock (2 * i)%nat)
                 - random (3 * i + 2)%nat * 30 * 24 * 60 * 60 * 1000)%Q)
         (clock (2 * i + 1)%nat).

Module Posts.

Definition list_content (i : nat) : string :=
  "This is a sample post content for performance testing. It contains enough text to simulate a real blog post. Lorem ipsum dolor sit amet, consectetur adipiscing elit. Sed do eiusmod tempor incididunt ut labore et dolore magna aliqua.".

(** [generatePosts(count)] *)
Definition generatePosts (random : nat → Q) (clock : nat → Z) (count : nat) : list Post :=
  seed_post random clock list_content <$> seq 0 count.

Record Meta : Type := mkMeta {
  total : Z;
  page : option Z;              (* [None]: NaN *)
  pageSize : option Z;
  totalPages : Num;
}.

(** The query string: [None] where [searchParams.get] gives [null]. *)
Record Query : Type := mkQuery {
  query_page : option string;
  query_pageSize : option string;
  query_sortBy : option string;
}.

(** [searchParams.get(k) || d] *)
Definition param_or (value : option string) (d : string) : string :=
  match value with
  | Some s => if String.eqb s "" then d else s
  | None => d
  end.

(** The comparator handed to [sort]. *)
Definition compare (sortBy : string) (a b : Post) : Z :=
  if String.eqb sortBy "views" then post_views b - post_views a
  else if String.eqb sortBy "likes" then post_likes b - post_likes a
  else post_createdAt b - post_createdAt a.

(** Vocabulary for statements about the order: the key [compare] orders
    by, largest first. *)
Definition sort_key (sortBy : string) (p : Post) : Z :=
  if String.eqb sortBy "views" then post_views p
  else if String.eqb sortBy "likes" then post_likes p
  else post_createdAt p.

Record World : Type := mkWorld {
  posts : list Post;
  ticks : nat;
}.

Section Route.
(** The host's [parseInt]: [None] is NaN. *)
Variable parseInt : string → option Z.
Variable clock : nat → Z.

Definition GET (query : Query) (posts : list Post) : Response (list Post) * Meta :=
  let page := parseInt (param_or (query_page query) "1") in
  let pageSize := parseInt (param_or (query_pageSize query) "10") in
  let sortBy := param_or (query_sortBy query) "createdAt" in
  let sortedPosts := sort (compare sortBy) posts in
  let start := p ← page; s ← pageSize; Some ((p - 1) * s) in
  let end_ := st ← start; s ← pageSize; Some (st + s) in
  let paginatedPosts := slice sortedPosts start end_ in
  let posts_length := Z.of_nat (length posts) in
  (mkResponse 200 true (Some paginatedPosts) None,
   mkMeta posts_length page pageSize
     (match pageSize with
      | Some s => Math_ceil (div (inject_Z posts_length) (inject_Z s))
      | None => NaN
      end)).

Definition Date_now : Eff World Z :=
  λ w, (Ok (clock (ticks w)), mkWorld (posts w) (S (ticks w))).

Definition posts_push (p : Post) : Eff World unit :=
  modify (λ w, mkWorld (posts w ++ [p]) (ticks w)).

Definition POST (request : option Val) : Eff World (Response Post) :=
  try_catch
    (body ← or_throw "SyntaxError" request;
     body_title ← or_type_error (get body "title");
     body_content ← or_type_error (get body "content");
     body_authorId ← or_type_error (get body "authorId");
     if negb (truthy body_title) || negb (truthy body_content)
        || negb (truthy body_authorId) then
       mret (mkResponse 400 false None (Some "Missing required fields"))
     else
       t_id ← Date_now;
       t_created ← Date_now;
       t_updated ← Date_now;
       let newPost :=
         mkPost ("post-" +:+ pretty t_id) body_title body_content body_authorId
                0 0 t_created t_updated in
       posts_push newPost;;
       mret (mkResponse 201 true (Some newPost) None))
    (λ _, mret (mkResponse 400 false None (Some "Invalid request body"))).

End Route.

(** Vocabulary for statements about a request: the body carries the three
    required fields, and the value it carries for a field. *)
Definition complete (request : option Val) : bool :=
  match request with
  | Some body =>
      Users.has_field body "title" && Users.has_field body "content"
      && Users.has_field body "authorId"
  | None => false
  end.

Definition field (request : option Val) (k : string) : Val :=
  default VUndef (request ≫= λ body, get body k).

End Posts.

Module Detail.

Definition detail_content (i : nat) : string :=
  "Detailed content for post " +:+ pretty (Z.of_nat i + 1) +:+
  ". This is a longer text that simulates a real blog post content with multiple paragraphs and detailed information.".

(** [new Map(Array.from({ length: 20 }, ...))] *)
Definition initial_posts (random : nat → Q) (clock : nat → Z) : gmap string Post :=
  foldl (λ m p, <[post_id p := p]> m) ∅
        (seed_post random clock detail_content <$> seq 0 20).

Record World : Type := mkWorld {
  posts : gmap string Post;
  ticks : nat;
}.

Definition GET (id : string) (posts : gmap string Post) : Response Post :=
  match posts !! id with
  | None => mkResponse 404 false None (Some "Post not found")
  | Some post => mkResponse 200 true (Some post) None
  end.

(** The answer of [DELETE] carries a message in place of a post. *)
Definition DELETE (id : string) (posts : gmap string Post)
  : Response string * gmap string Post :=
  match posts !! id with
  | None => (mkResponse 404 false None (Some "Post not found"), posts)
  | Some _ =>
      (mkResponse 200 true (Some "Post deleted successfully") None, delete id posts)
  end.

Section Route.
Variable clock : nat → Z.

Definition Date_now : Eff World Z :=
  λ w, (Ok (clock (ticks w)), mkWorld (posts w) (S (ticks w))).

Definition PUT (id : string) (request : option Val) : Eff World (Response Post) :=
  try_catch
    (body ← or_throw "SyntaxError" request;
     store ← gets posts;
     match store !! id with
     | None => mret (mkResponse 404 false None (Some "Post not found"))
     | Some post =>
         body_title ← or_type_error (get body "title");
         body_content ← or_type_error (get body "content");
         now ← Date_now;
         let updatedPost :=
           mkPost (post_id post)
                  (if truthy body_title then body_title else post_title post)
                  (if truthy body_content then body_content else post_content post)
                  (post_authorId post) (post_views post) (post_likes post)
                  (post_createdAt post) now in
         modify (λ w, mkWorld (<[id := updatedPost]> (posts w)) (ticks w));;
         mret (mkResponse 200 true (Some updatedPost) None)
     end)
    (λ _, mret (mkResponse 400 false None (Some "Invalid request body"))).

(** The three requests the route answers, and a sequence of them run on a
    store. *)
Inductive Op : Type :=
| OpGET (id : string)
| OpPUT (id : string) (request : option Val)
| OpDELETE (id : string).

Definition step (op : Op) (w : World) : World :=
  match op with
  | OpGET _ => w
  | OpPUT id request => (PUT id request w).2
  | OpDELETE id => mkWorld (DELETE id (posts w)).2 (ticks w)
  end.

Definition run (ops : list Op) (w : World) : World := foldl (λ w op, step op w) w ops.

End Route.
End Detail.

End Api.

(* ===================================================================== *)
(** ** [tests/k6/stress.js]                                               *)
(* ===================================================================== *)

Module Stress.

(** The end-of-run metrics [handleSummary] and [generateRecommendations]
    read. [slow_requests] is absent when the counter was never fed. *)
Record Metrics : Type := mkMetrics {
  http_req_failed_rate : Q;
  http_req_duration_p95 : Q;
  http_req_duration_p99 : Q;
  slow_requests_count : option Q;
}.

Inductive Status : Type := HEALTHY | WARNING | SLOW | DEGRADED | CRITICAL.

#[export] Instance Status_eq_dec : EqDecision Status.
Proof. solve_decision. Defined.

(** The [systemStatus] / [breakingPoint] pair of [handleSummary]. *)
Definition systemStatus (metrics : Metrics) : Status * option string :=
  let errorRate := http_req_failed_rate metrics in
  let p95Response := http_req_duration_p95 metrics in
  let p99Response := http_req_duration_p99 metrics in
  if gtb errorRate (5 # 10) then
    (CRITICAL, Some "System failure - Error rate > 50%")
  else if gtb errorRate (3 # 10) then
    (DEGRADED, Some "Performance degraded - Error rate > 30%")
  else if gtb p95Response 5000 then
    (SLOW, Some "Response time degraded - P95 > 5s")
  else if gtb p99Response 10000 then
    (WARNING, Some "Some requests very slow - P99 > 10s")
  else
    (HEALTHY, None).

(** The array [recommendations] as it stands before the [return]. *)
Definition recommendations (metrics : Metrics) (status : Status) : list string :=
  let errorRate := http_req_failed_rate metrics in
  let p95 := http_req_duration_p95 metrics in
  (if gtb errorRate (1 # 10) then
     ["• Implement circuit breakers to handle failures gracefully";
      "• Add retry logic with exponential backoff";
      "• Scale horizontally to distribute load"]
   else [])
  ++
  (if gtb p95 3000 then
     ["• Optimize database queries and add indexes";
      "• Implement caching layer (Redis/Memcached)";
      "• Consider database read replicas"]
   else [])
  ++
  (if bool_decide (status = CRITICAL) || bool_decide (status = DEGRADED) then
     ["• Implement rate limiting to prevent overload";
      "• Add autoscaling based on CPU/memory metrics";
      "• Review and optimize resource-intensive operations"]
   else [])
  ++
  (if match slow_requests_count metrics with
      | Some c => gtb c 100
      | None => false
      end
   then
     ["• Analyze slow query logs";
      "• Implement request timeout handling";
      "• Consider async processing for heavy operations"]
   else []).

Definition generateRecommendations (metrics : Metrics) (status : Status) : string :=
  let recommendations := recommendations metrics status in
  if Nat.ltb 0 (length recommendations) then join nl recommendations
  else "• System performed well under stress" +:+ nl
       +:+ "• Consider current configuration adequate".

(** Vocabulary for statements about the classification: the guard of each
    tier as [handleSummary] tests it ([HEALTHY] is the default and has
    none), and the rank of a tier in the order of severity. *)
Definition matches (s : Status) (metrics : Metrics) : bool :=
  match s with
  | CRITICAL => gtb (http_req_failed_rate metrics) (5 # 10)
  | DEGRADED => gtb (http_req_failed_rate metrics) (3 # 10)
  | SLOW => gtb (http_req_duration_p95 metrics) 5000
  | WARNING => gtb (http_req_duration_p99 metrics) 10000
  | HEALTHY => true
  end.

Definition severity (s : Status) : nat :=
  match s with
  | HEALTHY => 0
  | WARNING => 1
  | SLOW => 2
  | DEGRADED => 3
  | CRITICAL => 4
  end.

(** What [handleSummary] derives from the metrics (the report text only
    formats these and the raw figures). *)
Record Summary : Type := mkSummary {
  summary_status : Status;
  summary_breakingPoint : option string;
  summary_recommendations : string;
}.

Definition handleSummary (metrics : Metrics) : Summary :=
  let '(status, breakingPoint) := systemStatus metrics in
  mkSummary status breakingPoint (generateRecommendations metrics status).

(** *** The load patterns

    [readHeavy], [writeHeavy] and [mixed]. ([burst] is an [async] function
    that the default function starts without awaiting it; it and the
    default function are not modelled.) *)

Record Payload : Type := mkPayload {
  payload_title : string;
  payload_content : string;
  payload_authorId : string;
}.

Record Request : Type := mkRequest {
  method : string;
  url : string;
  payload : option Payload;
}.

Record Response : Type := mkResponse {
  status : Z;
  timings_duration : Q;
}.

(** The custom metrics, each as the sequence of samples added so far. *)
Record Registers : Type := mkRegisters {
  errorRate : list Z;          (* Rate('errors') *)
  apiErrors : list Z;          (* Counter('api_errors') *)
  slowRequests : list Z;       (* Counter('slow_requests') *)
  responseTime : list Z;       (* Trend('response_time') *)
}.

Record World : Type := mkWorld {
  registers : Registers;
  ticks : nat;
  draws : nat;
  requests : nat;
}.

Definition with_registers (f : Registers → Registers) (w : World) : World :=
  mkWorld (f (registers w)) (ticks w) (draws w) (requests w).

Section Patterns.
Variable clock : nat → Z.
Variable random : nat → Q.
Variable server : nat → Request → Response.
Variable toISOString : Z → string.
Variable BASE_URL : string.

Definition Date_now : Eff World Z :=
  λ w, (Ok (clock (ticks w)), mkWorld (registers w) (S (ticks w)) (draws w) (requests w)).

Definition Math_random : Eff World Q :=
  λ w, (Ok (random (draws w)), mkWorld (registers w) (ticks w) (S (draws w)) (requests w)).

Definition send (rq : Request) : Eff World Response :=
  λ w, (Ok (server (requests w) rq),
        mkWorld (registers w) (ticks w) (draws w) (S (requests w))).

Definition errorRate_add (x : Z) : Eff World unit :=
  modify (with_registers (λ r,
    mkRegisters (errorRate r ++ [x]) (apiErrors r) (slowRequests r) (responseTime r))).

Definition apiErrors_add (x : Z) : Eff World unit :=
  modify (with_registers (λ r,
    mkRegisters (errorRate r) (apiErrors r ++ [x]) (slowRequests r) (responseTime r))).

Definition slowRequests_add (x : Z) : Eff World unit :=
  modify (with_registers (λ r,
    mkRegisters (errorRate r) (apiErrors r) (slowRequests r ++ [x]) (responseTime r))).

Definition responseTime_add (x : Z) : Eff World unit :=
  modify (with_registers (λ r,
    mkRegisters (errorRate r) (apiErrors r) (slowRequests r) (responseTime r ++ [x]))).

Definition endpoints : list string :=
  ["/api/posts"; "/api/posts?page=2&pageSize=20"; "/api/users";
   "/api/posts/post-1"; "/api/posts/post-2"; "/api/posts/post-3"].

Definition readHeavy : Eff World Response :=
  r ← Math_random;
  let i := Math_floor (r * inject_Z (Z.of_nat (length endpoints)))%Q in
  let endpoint :=
    default "undefined" (if Z.ltb i 0 then None else endpoints !! Z.to_nat i) in
  start ← Date_now;
  res ← send (mkRequest "GET" (BASE_URL +:+ endpoint) None);
  now ← Date_now;
  let duration := now - start in
  responseTime_add duration;;
  (if Z.gtb duration 3000 then slowRequests_add 1 else mret tt);;
  let success := Z.eqb (status res) 200 && ltb (timings_duration res) 3000 in
  (if negb success || negb (Z.eqb (status res) 200) then
     apiErrors_add 1;; errorRate_add 1
   else errorRate_add 0);;
  mret res.

Definition writeHeavy : Eff World Response :=
  t ← Date_now;
  t' ← Date_now;
  r ← Math_random;
  let payload :=
    mkPayload ("Stress Test Post " +:+ pretty t)
              (repeat_string ("Heavy load testing at " +:+ toISOString t' +:+ ". ") 50)
              ("user-" +:+ pretty (Math_floor (r * 10)%Q + 1)) in
  start ← Date_now;
  res ← send (mkRequest "POST" (BASE_URL +:+ "/api/posts") (Some payload));
  now ← Date_now;
  let duration := now - start in
  responseTime_add duration;;
  (if Z.gtb duration 3000 then slowRequests_add 1 else mret tt);;
  let success := Z.eqb (status res) 201 && ltb (timings_duration res) 3000 in
  (if negb success then apiErrors_add 1;; errorRate_add 1
   else errorRate_add 0);;
  mret res.

Definition mixed : Eff World Response :=
  r ← Math_random;
  if ltb r (8 # 10) then readHeavy else writeHeavy.

(** The three patterns, and a sequence of them run in a row. *)
Inductive Pattern : Type := ReadHeavy | WriteHeavy | Mixed.

Definition pattern (p : Pattern) : Eff World unit :=
  match p with
  | ReadHeavy => readHeavy;; mret tt
  | WriteHeavy => writeHeavy;; mret tt
  | Mixed => mixed;; mret tt
  end.

Definition patterns (ps : list Pattern) : Eff World unit := for_each pattern ps.

End Patterns.

(** Vocabulary for statements about the advice: one of the four conditions
    of [generateRecommendations] holds. *)
Definition advice_due (metrics : Metrics) (status : Status) : bool :=
  gtb (http_req_failed_rate metrics) (1 # 10)
  || gtb (http_req_duration_p95 metrics) 3000
  || bool_decide (status = CRITICAL) || bool_decide (status = DEGRADED)
  || match slow_requests_count metrics with
     | Some c => gtb c 100
     | None => false
     end.

End Stress.

(* ===================================================================== *)
(** ** [tests/k6/spike.js]                                                *)
(* ===================================================================== *)

Module Spike.

Record PostData : Type := mkPostData {
  title : string;
  content : string;
  authorId : string;
}.

Record Request : Type := mkRequest {
  method : string;
  url : string;
  payload : option PostData;      (* [JSON.stringify(postData)] of a POST *)
}.

(** What the script reads of a k6 response. [json] is the outcome of
    [JSON.parse(res.body)]: [None] when it throws a [SyntaxError]. *)
Record Response : Type := mkResponse {
  status : Z;
  json : option Val;
  timings_duration : Q;
}.

(** [testData]. Entity ids are strings, as in the API's [Post] type. *)
Record TestData : Type := mkTestData {
  createdPosts : list (string * PostData);
  verifiedPosts : gset string;
  startTime : option Z;
  spikeStartTime : option Z;
  recoveryStartTime : option Z;
}.

(** The custom metrics, each as the sequence of samples added so far. *)
Record Registers : Type := mkRegisters {
  errorRate : list Z;          (* Rate('errors') *)
  spikeErrors : list Z;        (* Counter('spike_errors') *)
  recoveryTime : list Z;       (* Trend('recovery_time') *)
  dataIntegrity : list Z;      (* Rate('data_integrity') *)
}.

Record World : Type := mkWorld {
  testData : TestData;
  registers : Registers;
  ticks : nat;                 (* readings of the clock so far *)
  draws : nat;                 (* calls of [Math.random] so far *)
  requests : nat;              (* HTTP requests sent so far *)
}.

Definition with_testData (f : TestData → TestData) (w : World) : World :=
  mkWorld (f (testData w)) (registers w) (ticks w) (draws w) (requests w).

Definition with_registers (f : Registers → Registers) (w : World) : World :=
  mkWorld (testData w) (f (registers w)) (ticks w) (draws w) (requests w).

Definition set_createdPosts (m : list (string * PostData)) (t : TestData) : TestData :=
  mkTestData m (verifiedPosts t) (startTime t) (spikeStartTime t) (recoveryStartTime t).

Definition set_verifiedPosts (s : gset string) (t : TestData) : TestData :=
  mkTestData (createdPosts t) s (startTime t) (spikeStartTime t) (recoveryStartTime t).

Definition set_startTime (x : option Z) (t : TestData) : TestData :=
  mkTestData (createdPosts t) (verifiedPosts t) x (spikeStartTime t) (recoveryStartTime t).

Definition set_spikeStartTime (x : option Z) (t : TestData) : TestData :=
  mkTestData (createdPosts t) (verifiedPosts t) (startTime t) x (recoveryStartTime t).

Definition set_recoveryStartTime (x : option Z) (t : TestData) : TestData :=
  mkTestData (createdPosts t) (verifiedPosts t) (startTime t) (spikeStartTime t) x.

(** A timestamp slot holds [null] or a clock reading; [0] is falsy too. *)
Definition is_set (slot : option Z) : bool :=
  match slot with
  | Some t => negb (Z.eqb t 0)
  | None => false
  end.

Section Script.

(** The environment of one virtual user: the clock ([n]-th reading of
    [Date.now()] or [new Date()]), the random source ([n]-th result of
    [Math.random()]), the target ([n]-th request and what comes back), and
    the host's renderings of a number and of a date inside a string. *)
Variable clock : nat → Z.
Variable random : nat → Q.
Variable server : nat → Request → Response.
Variable show_number : Q → string.
Variable toISOString : Z → string.
Variable BASE_URL : string.

Definition Date_now : Eff World Z :=
  λ w, (Ok (clock (ticks w)),
        mkWorld (testData w) (registers w) (S (ticks w)) (draws w) (requests w)).

Definition Math_random : Eff World Q :=
  λ w, (Ok (random (draws w)),
        mkWorld (testData w) (registers w) (ticks w) (S (draws w)) (requests w)).

Definition send (rq : Request) : Eff World Response :=
  λ w, (Ok (server (requests w) rq),
        mkWorld (testData w) (registers w) (ticks w) (draws w) (S (requests w))).

Definition http_get (path : string) : Eff World Response :=
  send (mkRequest "GET" (BASE_URL +:+ path) None).

Definition http_post (path : string) (p : PostData) : Eff World Response :=
  send (mkRequest "POST" (BASE_URL +:+ path) (Some p)).

(** [sleep(s)]: time passes, which the next clock reading shows. *)
Definition sleep (seconds : Q) : Eff World unit := mret tt.

Definition errorRate_add (x : Z) : Eff World unit :=
  modify (with_registers (λ r,
    mkRegisters (errorRate r ++ [x]) (spikeErrors r) (recoveryTime r) (dataIntegrity r))).

Definition spikeErrors_add (x : Z) : Eff World unit :=
  modify (with_registers (λ r,
    mkRegisters (errorRate r) (spikeErrors r ++ [x]) (recoveryTime r) (dataIntegrity r))).

Definition recoveryTime_add (x : Z) : Eff World unit :=
  modify (with_registers (λ r,
    mkRegisters (errorRate r) (spikeErrors r) (recoveryTime r ++ [x]) (dataIntegrity r))).

Definition dataIntegrity_add (x : Z) : Eff World unit :=
  modify (with_registers (λ r,
    mkRegisters (errorRate r) (spikeErrors r) (recoveryTime r) (dataIntegrity r ++ [x]))).

(** [JSON.parse(res.body)] *)
Definition JSON_parse (res : Response) : Eff World Val :=
  match json res with
  | Some v => mret v
  | None => throw "SyntaxError"
  end.

Definition readSpike : Eff World unit :=
  let endpoints := ["/api/posts"; "/api/users"; "/api/health"] in
  for_each (λ endpoint,
    res ← http_get endpoint;
    let success := Z.eqb (status res) 200 in
    if negb success then spikeErrors_add 1;; errorRate_add 1
    else errorRate_add 0) endpoints.

(** A created post is registered under [responseData.data.id]; the model
    keeps string ids only (the API's [Post.id]). *)
Definition writeSpike : Eff World unit :=
  t ← Date_now;
  r ← Math_random;
  let postId := "spike-test-" +:+ pretty t +:+ "-" +:+ show_number r in
  t' ← Date_now;
  r' ← Math_random;
  let postData :=
    mkPostData ("Spike Test Post " +:+ postId)
               ("Content for spike test - " +:+ toISOString t')
               ("user-" +:+ pretty (Math_floor (r' * 5)%Q + 1)) in
  createRes ← http_post "/api/posts" postData;
  let created := Z.eqb (status createRes) 201 in
  if created then
    try_catch
      (responseData ← JSON_parse createRes;
       success ← or_type_error (get responseData "success");
       if truthy success then
         data ← or_type_error (get responseData "data");
         if truthy data then
           id ← or_type_error (get data "id");
           match id with
           | VStr id =>
               modify (with_testData (λ td,
                 set_createdPosts (map_set id postData (createdPosts td)) td))
           | _ => mret tt
           end
         else mret tt
       else mret tt)
      (λ _, mret tt)
  else
    spikeErrors_add 1;; errorRate_add 1.

(** [postIds[i]] *)
Definition at_index (postIds : list string) (i : Z) : option string :=
  if Z.ltb i 0 then None else postIds !! Z.to_nat i.

Definition verifyDataIntegrity : Eff World unit :=
  posts ← gets (λ w, createdPosts (testData w));
  if Z.eqb (map_size posts) 0 then mret tt
  else
    let postIds := map_keys posts in
    r ← Math_random;
    let randomId := at_index postIds (Math_floor (r * inject_Z (Z.of_nat (length postIds)))%Q) in
    let originalData := randomId ≫= λ id, assoc id posts in
    verified ← gets (λ w, verifiedPosts (testData w));
    match randomId, originalData with
    | Some randomId, Some originalData =>
        if bool_decide (randomId ∈ verified) then mret tt
        else
          res ← http_get ("/api/posts/" +:+ randomId);
          if Z.eqb (status res) 200 then
            try_catch
              (body ← JSON_parse res;
               success ← or_type_error (get body "success");
               if truthy success then
                 data ← or_type_error (get body "data");
                 if truthy data then
                   data_title ← or_type_error (get data "title");
                   data_content ← or_type_error (get data "content");
                   let isValid :=
                     strict_eq data_title (VStr (title originalData)) &&
                     strict_eq data_content (VStr (content originalData)) in
                   dataIntegrity_add (if isValid then 1 else 0);;
                   if isValid then
                     modify (with_testData (λ td,
                       set_verifiedPosts ({[randomId]} ∪ verifiedPosts td) td))
                   else mret tt
                 else mret tt
               else mret tt)
              (λ _, dataIntegrity_add 0)
          else dataIntegrity_add 0
    | _, _ => mret tt
    end.

Definition measureRecovery : Eff World bool :=
  start ← Date_now;
  res ← http_get "/api/health";
  if Z.eqb (status res) 200 && ltb (timings_duration res) 500 then
    now ← Date_now;
    recoveryTime_add (now - start);;
    mret true
  else mret false.

Definition getCurrentStage : Eff World string :=
  now ← Date_now;
  start ← gets (λ w, startTime (testData w));
  match start with
  | None => mret "stabilization"
  | Some start =>
      let elapsed := now - start in
      let minutes := (inject_Z elapsed / 60000)%Q in
      mret (if ltb minutes 1 then "warmup"
            else if ltb minutes (3 # 2) then "spike1_ramp"
            else if ltb minutes (7 # 2) then "spike1_peak"
            else if ltb minutes 4 then "spike1_recovery"
            else if ltb minutes 6 then "normal1"
            else if ltb minutes (13 # 2) then "spike2_ramp"
            else if ltb minutes (15 # 2) then "spike2_peak"
            else if ltb minutes 8 then "spike2_recovery"
            else "stabilization")
  end.

(** The default export: one iteration of a virtual user, run while the
    number of virtual users is [currentVUs]. Console output, and the clock
    readings taken only to print a date, are left out. *)
Definition default_function (currentVUs : Z) : Eff World unit :=
  currentStage ← getCurrentStage;
  if Z.gtb currentVUs 100 then
    spikeStart ← gets (λ w, spikeStartTime (testData w));
    (if negb (is_set spikeStart) then
       now ← Date_now;
       modify (with_testData (set_spikeStartTime (Some now)))
     else mret tt);;
    r ← Math_random;
    (if ltb r (7 # 10) then readSpike
     else if ltb r (9 # 10) then writeSpike
     else verifyDataIntegrity);;
    r_sleep ← Math_random;
    sleep (r_sleep * (1 # 2))%Q
  else
    spikeStart ← gets (λ w, spikeStartTime (testData w));
    recoveryStart ← gets (λ w, recoveryStartTime (testData w));
    (if is_set spikeStart && negb (is_set recoveryStart) then
       now ← Date_now;
       modify (with_testData (set_recoveryStartTime (Some now)))
     else mret tt);;
    recoveryStart ← gets (λ w, recoveryStartTime (testData w));
    (match recoveryStart return Eff World unit with
     | Some t_recovery =>
         if is_set recoveryStart then
           recovered ← measureRecovery;
           if (recovered : bool) then
             now ← Date_now;
             if Z.gtb (now - t_recovery) 5000 then
               now' ← Date_now;
               let recoveryDuration := now' - t_recovery in
               modify (with_testData (set_recoveryStartTime None));;
               modify (with_testData (set_spikeStartTime None))
             else mret tt
           else mret tt
         else mret tt
     | None => mret tt
     end);;
    res ← http_get "/api/posts";
    r ← Math_random;
    (if ltb r (2 # 10) then verifyDataIntegrity else mret tt);;
    r_sleep ← Math_random;
    sleep (r_sleep * 2 + 1)%Q.

(** Successive iterations of one virtual user, the [i]-th run while the
    number of virtual users is the [i]-th element of [trace]. *)
Definition iterations (trace : list Z) : Eff World unit :=
  for_each default_function trace.

(** [setup()] *)
Definition setup : Eff World unit :=
  now ← Date_now;
  modify (with_testData (set_startTime (Some now)));;
  res ← http_get "/api/health";
  if negb (Z.eqb (status res) 200) then throw "System is not healthy before test"
  else
    _ ← Date_now;
    mret tt.

End Script.

(** Vocabulary for statements about the integrity check: the id that
    [postIds[Math.floor(Math.random() * postIds.length)]] selects when the
    random source returns [r], and the request the check then sends. *)
Definition pick (posts : list (string * PostData)) (r : Q) : option string :=
  at_index (map_keys posts)
    (Math_floor (r * inject_Z (Z.of_nat (length (map_keys posts))))%Q).

Definition refetch (BASE_URL id : string) : Request :=
  mkRequest "GET" (BASE_URL +:+ "/api/posts/" +:+ id) None.


Definition after_refetch (w : World) : World :=
  mkWorld (testData w) (registers w) (ticks w) (S (draws w)) (S (requests w)).

(** *** The report *)

(** The end-of-run metrics [handleSummary] and its helpers read. The three
    custom metrics are read through [?.], so they may be absent. *)
Record Metrics : Type := mkMetrics {
  spike_errors_count : option Q;
  recovery_time_avg : option Q;
  data_integrity_rate : option Q;
  errors_rate : option Q;
  http_req_failed_rate : Q;
  http_req_duration_p95 : Q;
  http_req_duration_p99 : Q;
}.

(** The array [recommendations] as it stands before the [return]. *)
Definition recommendations
  (metrics : Metrics) (spikeErrors avgRecovery integrityRate : Q) : list string :=
  let recommendations : list string :=
   ((if gtb spikeErrors 100 then
       ["• Implement request queuing to handle bursts";
        "• Add connection pooling and rate limiting";
        "• Configure auto-scaling with aggressive policies"]
     else [])
    ++
    (if gtb avgRecovery 5000 then
       ["• Optimize recovery mechanisms";
        "• Implement health check based routing";
        "• Add circuit breakers for faster recovery"]
     else [])
    ++
    (if ltb integrityRate (99 # 100) then
       ["• Review transaction handling during high load";
        "• Implement database connection retry logic";
        "• Add data validation layers"]
     else [])
    ++
    (if gtb (http_req_duration_p99 metrics) 10000 then
       ["• Implement request timeout handling";
        "• Add caching layers to reduce load";
        "• Optimize database queries and indexes"]
     else []))%list in
  if Nat.eqb (length recommendations) 0 then
    (recommendations ++
      ["• System performs well under spike conditions";
       "• Consider current configuration adequate";
       "• Monitor for edge cases in production"])%list
  else recommendations.

Definition generateSpikeRecommendations
  (metrics : Metrics) (spikeErrors avgRecovery integrityRate : Q) : string :=
  join nl (recommendations metrics spikeErrors avgRecovery integrityRate).

(** The figures [handleSummary] passes on, and the advice it prints. *)
Definition handleSummary_recommendations (metrics : Metrics) : string :=
  let totalErrors := num_or (spike_errors_count metrics) 0 in
  let avgRecoveryTime := num_or (recovery_time_avg metrics) 0 in
  let integrityRate := num_or (data_integrity_rate metrics) 1 in
  generateSpikeRecommendations metrics totalErrors avgRecoveryTime integrityRate.

(** The array [analysis] of [analyzeSystemBehavior] before the [return]. *)
Definition analysis (metrics : Metrics) (spikeErrors integrityRate : Q) : list string :=
  let errorRate := http_req_failed_rate metrics in
  let p95 := http_req_duration_p95 metrics in
  (if ltb errorRate (1 # 10) && ltb spikeErrors 50 then
     ["✅ System handled spikes excellently";
      "✅ Minimal errors during traffic surges"]
   else if ltb errorRate (3 # 10) then
     ["⚠️ System showed some degradation during spikes";
      "⚠️ Moderate error rate increase observed"]
   else
     ["❌ System struggled significantly during spikes";
      "❌ High error rate indicates capacity issues"])
  ++
  [if gtb integrityRate (99 # 100) then "✅ Perfect data integrity maintained"
   else if gtb integrityRate (95 # 100) then "✅ Good data integrity (>95%)"
   else "⚠️ Data integrity concerns detected"]
  ++
  [if ltb p95 2000 then "✅ Response times remained acceptable"
   else if ltb p95 5000 then "⚠️ Response times degraded but recoverable"
   else "❌ Severe response time degradation"].

Definition analyzeSystemBehavior (metrics : Metrics) (spikeErrors integrityRate : Q) : string :=
  join nl (analysis metrics spikeErrors integrityRate).

(** The two arrays as [handleSummary] has them built, from the figures it
    derives from the metrics. *)
Definition handleSummary_analysis (metrics : Metrics) : list string :=
  let totalErrors := num_or (spike_errors_count metrics) 0 in
  let integrityRate := num_or (data_integrity_rate metrics) 1 in
  analysis metrics totalErrors integrityRate.

Definition handleSummary_advice (metrics : Metrics) : list string :=
  let totalErrors := num_or (spike_errors_count metrics) 0 in
  let avgRecoveryTime := num_or (recovery_time_avg metrics) 0 in
  let integrityRate := num_or (data_integrity_rate metrics) 1 in
  recommendations metrics totalErrors avgRecoveryTime integrityRate.

(** [options.stages]: the duration of each stage in seconds, and its
    target number of virtual users. *)
Definition stages : list (Z * Z) :=
  [(60, 10); (30, 300); (120, 300); (30, 10); (120, 10);
   (30, 500); (60, 500); (30, 10); (120, 10)].

(** Vocabulary for statements about the stages: the times in milliseconds
    at which the stages of a plan end, the number of stages that have
    ended after [elapsed] milliseconds, and the names [getCurrentStage]
    uses, in the order of the plan. *)
Fixpoint stage_ends (from : Z) (plan : list (Z * Z)) : list Z :=
  match plan with
  | [] => []
  | (seconds, _) :: plan' =>
      (from + seconds * 1000) :: stage_ends (from + seconds * 1000) plan'
  end.

Definition stages_ended (plan : list (Z * Z)) (elapsed : Z) : nat :=
  length (filter (λ stage_end, stage_end <= elapsed) (stage_ends 0 plan)).

Definition stage_names : list string :=
  ["warmup"; "spike1_ramp"; "spike1_peak"; "spike1_recovery"; "normal1";
   "spike2_ramp"; "spike2_peak"; "spike2_recovery"; "stabilization"].

(** Vocabulary for statements about a run. [evolves w w']: every created
    id of [w] is a created id of [w'], every verified id of [w] is
    verified in [w'], and an id verified in [w'] was verified in [w] or is
    a created id of [w']. [coherent w]: a recovery is under way only
    after a spike was seen. *)
Definition evolves (w w' : World) : Prop :=
  (∀ id, id ∈ map_keys (createdPosts (testData w)) →
         id ∈ map_keys (createdPosts (testData w'))) ∧
  verifiedPosts (testData w) ⊆ verifiedPosts (testData w') ∧
  (∀ id, id ∈ verifiedPosts (testData w') →
         id ∈ verifiedPosts (testData w) ∨
         id ∈ map_keys (createdPosts (testData w'))).

Definition coherent (w : World) : Prop :=
  is_set (recoveryStartTime (testData w)) = true →
  is_set (spikeStartTime (testData w)) = true.

End Spike.

(* ===================================================================== *)
(** ** [tests/k6/soak.js]                                                 *)
(* ===================================================================== *)

Module Soak.

(** The body of [GET /api/health] once parsed: [heapUsed] is
    [health.memory.heapUsed], [None] when [memory] or [heapUsed] is
    missing. *)
Record Health : Type := mkHealth {
  heapUsed : option Q;
}.

(** What the script reads of a k6 response. [health] is the outcome of
    [JSON.parse(res.body)] followed by the reads of [health.memory]:
    [None] when one of them throws. *)
Record Response : Type := mkResponse {
  status : Z;
  body : option string;
  health : option Health;
}.

Record InitialMetrics : Type := mkInitialMetrics {
  responseTime : option Z;
  memoryUsage : option Q;
}.

Record Checkpoint : Type := mkCheckpoint {
  cp_time : Z;
  cp_responseTime : Z;
  cp_openConnections : Z;
}.

Record ResourceMonitor : Type := mkResourceMonitor {
  openConnections : gset string;
  activeRequests : list (string * Z);
  dataCache : list (string * string);
}.

(** [testState] *)
Record TestState : Type := mkTestState {
  startTime : Z;
  initialMetrics : InitialMetrics;
  checkpoints : gmap Z Checkpoint;
  resourceMonitor : ResourceMonitor;
}.

(** The custom metrics, each as the sequence of samples added so far. *)
Record Registers : Type := mkRegisters {
  memoryTrend : list Q;        (* Trend('memory_usage') *)
  degradationRate : list Z;    (* Rate('performance_degradation') *)
  resourceLeaks : list Z;      (* Counter('potential_leaks') *)
  currentMemory : list Q;      (* Gauge('current_memory') *)
}.

Record World : Type := mkWorld {
  testState : TestState;
  registers : Registers;
  ticks : nat;
  requests : nat;
}.

Definition with_testState (f : TestState → TestState) (w : World) : World :=
  mkWorld (f (testState w)) (registers w) (ticks w) (requests w).

Definition with_registers (f : Registers → Registers) (w : World) : World :=
  mkWorld (testState w) (f (registers w)) (ticks w) (requests w).

Definition with_initialMetrics (f : InitialMetrics → InitialMetrics) (s : TestState) : TestState :=
  mkTestState (startTime s) (f (initialMetrics s)) (checkpoints s) (resourceMonitor s).

Definition with_checkpoints (f : gmap Z Checkpoint → gmap Z Checkpoint) (s : TestState) : TestState :=
  mkTestState (startTime s) (initialMetrics s) (f (checkpoints s)) (resourceMonitor s).

Definition with_resourceMonitor (f : ResourceMonitor → ResourceMonitor) (s : TestState) : TestState :=
  mkTestState (startTime s) (initialMetrics s) (checkpoints s) (f (resourceMonitor s)).

Definition with_activeRequests (f : list (string * Z) → list (string * Z)) (m : ResourceMonitor)
  : ResourceMonitor :=
  mkResourceMonitor (openConnections m) (f (activeRequests m)) (dataCache m).

Definition with_dataCache (f : list (string * string) → list (string * string)) (m : ResourceMonitor)
  : ResourceMonitor :=
  mkResourceMonitor (openConnections m) (activeRequests m) (f (dataCache m)).

(** [!x] on a slot that holds [null] or a number: [0] is falsy too. *)
Definition unset_Z (slot : option Z) : bool :=
  match slot with
  | Some x => Z.eqb x 0
  | None => true
  end.

Definition unset_Q (slot : option Q) : bool :=
  match slot with
  | Some x => Qeq_bool x 0
  | None => true
  end.

(** The cache clean-up of [resourceIntensiveTask]:
    [if (cache.size > 100) cache.delete(cache.keys().next().value)]. *)
Definition evict_oldest (cache : list (string * string)) : list (string * string) :=
  if Z.gtb (map_size cache) 100 then
    match map_keys cache with
    | oldestKey :: _ => map_delete oldestKey cache
    | [] => cache
    end
  else cache.

Section Script.

Variable clock : nat → Z.
Variable server : nat → string → Response.
Variable BASE_URL : string.

Definition Date_now : Eff World Z :=
  λ w, (Ok (clock (ticks w)),
        mkWorld (testState w) (registers w) (S (ticks w)) (requests w)).

Definition http_get (path : string) : Eff World Response :=
  λ w, (Ok (server (requests w) (BASE_URL +:+ path)),
        mkWorld (testState w) (registers w) (ticks w) (S (requests w))).

Definition memoryTrend_add (x : Q) : Eff World unit :=
  modify (with_registers (λ r,
    mkRegisters (memoryTrend r ++ [x]) (degradationRate r) (resourceLeaks r) (currentMemory r))).

Definition degradationRate_add (x : Z) : Eff World unit :=
  modify (with_registers (λ r,
    mkRegisters (memoryTrend r) (degradationRate r ++ [x]) (resourceLeaks r) (currentMemory r))).

Definition resourceLeaks_add (x : Z) : Eff World unit :=
  modify (with_registers (λ r,
    mkRegisters (memoryTrend r) (degradationRate r) (resourceLeaks r ++ [x]) (currentMemory r))).

Definition currentMemory_add (x : Q) : Eff World unit :=
  modify (with_registers (λ r,
    mkRegisters (memoryTrend r) (degradationRate r) (resourceLeaks r) (currentMemory r ++ [x]))).

Definition resourceIntensiveTask : Eff World unit :=
  t ← Date_now;
  let taskId := "task-" +:+ pretty t in
  t' ← Date_now;
  modify (with_testState (with_resourceMonitor (with_activeRequests (map_set taskId t'))));;
  res ← http_get "/api/posts?pageSize=50";
  let success := Z.eqb (status res) 200 in
  (if negb success then resourceLeaks_add 1 else mret tt);;
  (match body res with
   | Some res_body =>
       if success && negb (String.eqb res_body "") then
         modify (with_testState (with_resourceMonitor (with_dataCache
           (λ cache, evict_oldest (map_set taskId res_body cache)))))
       else mret tt
   | None => mret tt
   end);;
  modify (with_testState (with_resourceMonitor (with_activeRequests (map_delete taskId)))).

Definition monitorSystemHealth : Eff World unit :=
  healthRes ← http_get "/api/health";
  if Z.eqb (status healthRes) 200 then
    try_catch
      (match health healthRes with
       | None => throw "Error"
       | Some h =>
           match heapUsed h with
           | Some heap =>
               if negb (Qeq_bool heap 0) then
                 let memoryMB := (heap / 1024 / 1024)%Q in
                 memoryTrend_add memoryMB;;
                 currentMemory_add memoryMB;;
                 initial ← gets (λ w, memoryUsage (initialMetrics (testState w)));
                 (if unset_Q initial then
                    modify (with_testState (with_initialMetrics (λ i,
                      mkInitialMetrics (responseTime i) (Some memoryMB))))
                  else mret tt);;
                 initial ← gets (λ w, memoryUsage (initialMetrics (testState w)));
                 let memoryIncrease := (memoryMB - default 0 initial)%Q in
                 now ← Date_now;
                 start ← gets (λ w, startTime (testState w));
                 let runTime := (inject_Z (now - start) / 1000 / 60)%Q in
                 let increasePerMinute := div memoryIncrease runTime in
                 if num_gtb increasePerMinute 1 then resourceLeaks_add 1
                 else mret tt
               else mret tt
           | None => mret tt
           end
       end)
      (λ _, mret tt)
  else mret tt.

Definition trackPerformanceDegradation : Eff World unit :=
  start ← Date_now;
  res ← http_get "/api/posts";
  now ← Date_now;
  let responseTime_ := now - start in
  initial ← gets (λ w, responseTime (initialMetrics (testState w)));
  (if unset_Z initial then
     modify (with_testState (with_initialMetrics (λ i,
       mkInitialMetrics (Some responseTime_) (memoryUsage i))))
   else mret tt);;
  initial ← gets (λ w, responseTime (initialMetrics (testState w)));
  let initialResponseTime := default 0 initial in
  let degradation :=
    div (inject_Z (responseTime_ - initialResponseTime)) (inject_Z initialResponseTime) in
  degradationRate_add (if num_gtb degradation (2 # 10) then 1 else 0);;
  now' ← Date_now;
  t0 ← gets (λ w, startTime (testState w));
  let elapsed := now' - t0 in
  let minutes := elapsed / 60000 in
  cps ← gets (λ w, checkpoints (testState w));
  if Z.eqb (Z.rem minutes 10) 0 && bool_decide (cps !! minutes = None) then
    time ← Date_now;
    conns ← gets (λ w, openConnections (resourceMonitor (testState w)));
    modify (with_testState (with_checkpoints
      (insert minutes (mkCheckpoint time responseTime_ (Z.of_nat (size conns))))))
  else mret tt.

(** The scenarios that touch the baselines and the cache.
    [normalUserBehavior] writes neither. *)
Inductive Call : Type :=
| CallResourceIntensiveTask
| CallMonitorSystemHealth
| CallTrackPerformanceDegradation.

Definition call (c : Call) : Eff World unit :=
  match c with
  | CallResourceIntensiveTask => resourceIntensiveTask
  | CallMonitorSystemHealth => monitorSystemHealth
  | CallTrackPerformanceDegradation => trackPerformanceDegradation
  end.

(** The worlds a run goes through: the one after each call, in order.
    A thrown error would end the run there. *)
Fixpoint trace (cs : list Call) (w : World) : list World :=
  match cs with
  | [] => []
  | c :: cs' =>
      match call c w with
      | (Ok _, w') => w' :: trace cs' w'
      | (Throw _, w') => [w']
      end
  end.

End Script.

(** Vocabulary for statements about a world: the cache and the two
    baselines it holds. *)
Definition cache_of (w : World) : list (string * string) :=
  dataCache (resourceMonitor (testState w)).

Definition baseline_responseTime (w : World) : option Z :=
  responseTime (initialMetrics (testState w)).

Definition baseline_memory (w : World) : option Q :=
  memoryUsage (initialMetrics (testState w)).

(** [testState] as the module initialises it at time [now]. *)
Definition initial_world (now : Z) : World :=
  mkWorld
    (mkTestState now (mkInitialMetrics None None) ∅ (mkResourceMonitor ∅ [] []))
    (mkRegisters [] [] [] [])
    0 0.

(** *** The report *)

Record MemoryUsage : Type := mkMemoryUsage {
  avg : Q;
  max : Q;
  min : Q;
}.

Record Metrics : Type := mkMetrics {
  memory_usage : option MemoryUsage;
  performance_degradation_rate : option Q;
  potential_leaks_count : option Q;
  http_req_failed_rate : Q;
  http_req_duration_p99 : Q;
}.

(** [memoryGrowth] of [handleSummary] *)
Definition memoryGrowth (metrics : Metrics) : Q :=
  let maxMemory := num_or (max <$> memory_usage metrics) 0 in
  let minMemory := num_or (min <$> memory_usage metrics) 0 in
  (maxMemory - minMemory)%Q.

(** [(memoryGrowth / duration) * 60] *)
Definition memoryGrowthPerHour (memoryGrowth duration : Q) : Num :=
  times (div memoryGrowth duration) 60.

(** The array [assessment] as it stands before the [return]. *)
Definition assessment
  (metrics : Metrics) (memoryGrowth degradationRate duration : Q) : list string :=
  let errorRate := http_req_failed_rate metrics in
  let memoryGrowthPerHour := memoryGrowthPerHour memoryGrowth duration in
  [ if num_ltb memoryGrowthPerHour 10 then
      "✅ Memory usage stable (< 10MB/hour growth)"
    else if num_ltb memoryGrowthPerHour 50 then
      "⚠️ Moderate memory growth detected (10-50MB/hour)"
    else
      "❌ Significant memory growth (> 50MB/hour) - possible leak";
    if ltb degradationRate (5 # 100) then
      "✅ Performance remained consistent"
    else if ltb degradationRate (15 # 100) then
      "⚠️ Some performance degradation observed"
    else
      "❌ Significant performance degradation over time";
    if ltb errorRate (1 # 100) then
      "✅ Very low error rate maintained"
    else if ltb errorRate (5 # 100) then
      "✅ Acceptable error rate"
    else
      "⚠️ Higher than expected error rate";
    if num_ltb memoryGrowthPerHour 10 && ltb degradationRate (5 # 100)
       && ltb errorRate (1 # 100) then
      nl +:+ "🎯 EXCELLENT: System is production-ready for long-term operation"
    else if num_ltb memoryGrowthPerHour 50 && ltb degradationRate (15 # 100)
            && ltb errorRate (5 # 100) then
      nl +:+ "✅ GOOD: System is stable but needs monitoring"
    else
      nl +:+ "⚠️ ATTENTION NEEDED: System shows signs of instability" ].

Definition assessStability
  (metrics : Metrics) (memoryGrowth degradationRate duration : Q) : string :=
  join nl (assessment metrics memoryGrowth degradationRate duration).

(** The stability section of [handleSummary], [now] being the clock
    reading it takes and [start] being [testState.startTime]. *)
Definition handleSummary_stability (metrics : Metrics) (start now : Z) : string :=
  let testDuration := (inject_Z (now - start) / 1000 / 60)%Q in
  let performanceDegradationRate := num_or (performance_degradation_rate metrics) 0 in
  assessStability metrics (memoryGrowth metrics) performanceDegradationRate testDuration.

(** The array [recommendations] of [generateSoakRecommendations] as it
    stands before the [return]. *)
Definition recommendations
  (metrics : Metrics) (memoryGrowth degradationRate leaks duration : Q) : list string :=
  let memoryGrowthPerHour := memoryGrowthPerHour memoryGrowth duration in
  let recommendations : list string :=
   ((if num_gtb memoryGrowthPerHour 10 then
       ["• Investigate memory leaks in application code";
        "• Review database connection pooling";
        "• Check for unreleased resources or event listeners";
        "• Implement periodic garbage collection"]
     else [])
    ++
    (if gtb degradationRate (10 # 100) then
       ["• Review database query performance over time";
        "• Check for index fragmentation";
        "• Monitor cache effectiveness";
        "• Consider implementing connection pooling limits"]
     else [])
    ++
    (if gtb leaks 10 then
       ["• Add resource cleanup in error handlers";
        "• Implement request timeout handling";
        "• Review third-party library usage";
        "• Add monitoring for resource usage patterns"]
     else [])
    ++
    (if gtb (http_req_duration_p99 metrics) 5000 then
       ["• Identify and optimize slow endpoints";
        "• Consider implementing request queuing";
        "• Add response caching for frequently accessed data"]
     else []))%list in
  if Nat.eqb (length recommendations) 0 then
    (recommendations ++
      ["• System shows excellent long-term stability";
       "• Continue monitoring in production";
       "• Consider increasing load for next test iteration"])%list
  else recommendations.

Definition generateSoakRecommendations
  (metrics : Metrics) (memoryGrowth degradationRate leaks duration : Q) : string :=
  join nl (recommendations metrics memoryGrowth degradationRate leaks duration).

(** The verdict line of an assessment, and the three verdicts. *)
Definition verdict (assessment : list string) : option string := last assessment.

Definition excellent : string :=
  nl +:+ "🎯 EXCELLENT: System is production-ready for long-term operation".

(** Vocabulary for statements about the checkpoints: every checkpoint of
    [w] is a checkpoint of [w'] with the same contents, and a minute that
    is new in [w'] is a multiple of ten. *)
Definition checkpoints_extend (w w' : World) : Prop :=
  (∀ minute cp, checkpoints (testState w) !! minute = Some cp →
                checkpoints (testState w') !! minute = Some cp) ∧
  (∀ minute, checkpoints (testState w) !! minute = None →
             is_Some (checkpoints (testState w') !! minute) →
             Z.rem minute 10 = 0).

End Soak.

(* ===================================================================== *)
(** * Sample inputs                                                       *)
(* ===================================================================== *)

Module Samples.

(** A steady clock: the [n]-th reading is [1000 + n]. *)
Definition steady_clock (n : nat) : Z := 1000 + Z.of_nat n.

Definition one_user : Api.Users.World :=
  Api.Users.mkWorld
    [Api.Users.mkUser "user-1" (VStr "Test User 1") (VStr "user1@example.com")
       (VStr "https://i.pravatar.cc/150?img=1") 0]
    0.

Definition duplicate_signup : option Val :=
  Some (VObj [("name", VStr "Someone"); ("email", VStr "user1@example.com")]).

Definition nameless_signup : option Val :=
  Some (VObj [("email", VStr "new@example.com")]).

Definition fresh_signup : option Val :=
  Some (VObj [("name", VStr "Someone"); ("email", VStr "new@example.com")]).

(** A run in which six requests in ten failed. *)
Definition failing_run : Stress.Metrics :=
  Stress.mkMetrics (6 # 10) 800 1200 None.

(** The figures of a quiet spike run. *)
Definition quiet_spike : Spike.Metrics :=
  Spike.mkMetrics (Some 0%Q) (Some 20%Q) (Some 1%Q) (Some 0%Q) 0 50 80.

(** A soak run whose memory samples range from 100 MB to 160 MB. *)
Definition rising_memory : Soak.Metrics :=
  Soak.mkMetrics (Some (Soak.mkMemoryUsage 130 160 100)) (Some 0%Q) (Some 0%Q) 0 100.

(** The environment of the spike samples: a clock given by its first
    readings (and stuck at the last one afterwards), a random source that
    always returns one half, a target that answers every request with 200
    in 20 ms and a body without the [success]/[data] envelope. *)
Definition readings (first : list Z) (n : nat) : Z :=
  default (List.last first 0) (first !! n).

Definition one_half (n : nat) : Q := 1 # 2.

Definition zero (n : nat) : Q := 0.

Definition plain_ok (n : nat) (rq : Spike.Request) : Spike.Response :=
  Spike.mkResponse 200 (Some (VObj [("status", VStr "ok")])) 20.

Definition show_number (q : Q) : string := "0.5".

Definition toISOString (t : Z) : string := pretty t.

Definition base_url : string := "http://localhost:4000".

(** One post was created and is not verified yet. *)
Definition one_created_post : Spike.World :=
  Spike.mkWorld
    (Spike.mkTestData
       [("post-21", Spike.mkPostData "Spike Test Post" "Content for spike test" "user-1")]
       ∅ (Some 1000) None None)
    (Spike.mkRegisters [] [] [] [])
    0 0 0.


(** A run in the RECOVERING state: started at 1000, the spike was seen at
    61000 and the recovery began at 241000. *)
Definition recovering : Spike.World :=
  Spike.mkWorld
    (Spike.mkTestData [] ∅ (Some 1000) (Some 61000) (Some 241000))
    (Spike.mkRegisters [] [] [] [])
    0 0 0.

(** A fresh run, started at 500. *)
Definition fresh : Spike.World :=
  Spike.mkWorld
    (Spike.mkTestData [] ∅ (Some 500) None None)
    (Spike.mkRegisters [] [] [] [])
    0 0 0.

(** Clock readings for six iterations under 10, 10, 300, 300, 10, 10
    virtual users: two quiet iterations, the spike seen at 61000, the
    recovery begun at 241000 with a first probe (241010 to 241030) tested
    at 241031, then a second probe (250000 to 250020) tested at 250020. *)
Definition one_cycle : nat → Z :=
  readings [1000; 2000;
            60000; 61000;
            62000;
            240000; 241000; 241010; 241030; 241031;
            250000; 250000; 250020; 250020; 250021].

(** Clock readings of an iteration nine seconds into the recovery: the
    stage lookup, the start of the probe, its end 20 ms later, the dwell
    test and the reading for the duration. *)
Definition nine_seconds_in : nat → Z :=
  readings [250000; 250000; 250020; 250020; 250021].

(** The environment of the soak samples: a target that answers every
    request with 200, a short body and a heap of 100 MB. *)
Definition healthy (n : nat) (url : string) : Soak.Response :=
  Soak.mkResponse 200 (Some "[]") (Some (Soak.mkHealth (Some 104857600%Q))).

(** Clock readings of two performance checks: the first request returns
    within the millisecond it was sent in, the second takes 5 ms. *)
Definition instant_then_slow : nat → Z :=
  readings [1000; 1000; 1000; 1000; 2000; 2005; 2005].

(** A cache at capacity: keys [task-0] to [task-99], oldest first. *)
Definition full_cache : list (string * string) :=
  (λ i : nat, ("task-" +:+ pretty (Z.of_nat i), "[]")) <$> seq 0 100.

Definition at_capacity : Soak.World :=
  Soak.mkWorld
    (Soak.mkTestState 0 (Soak.mkInitialMetrics None None) ∅
       (Soak.mkResourceMonitor ∅ [] full_cache))
    (Soak.mkRegisters [] [] [] [])
    0 0.

(** A [parseInt] for the samples: an optional minus sign and the decimal
    digits that follow, anything after them ignored; NaN without a digit. *)
Fixpoint digits (s : string) (acc : option Z) : option Z :=
  match s with
  | EmptyString => acc
  | String c s' =>
      let n := Z.of_nat (Ascii.nat_of_ascii c) - 48 in
      if Z.leb 0 n && Z.leb n 9 then digits s' (Some (default 0 acc * 10 + n))
      else acc
  end.

Definition parseInt (s : string) : option Z :=
  match s with
  | String "-"%char s' => Z.opp <$> digits s' None
  | _ => digits s None
  end.

(** The twenty posts of the list route under a random source that always
    returns one half and the clock of the signup samples. *)
Definition twenty_posts : list Api.Post :=
  Api.Posts.generatePosts one_half steady_clock 20.

Definition second_page_of_eight : Api.Posts.Query :=
  Api.Posts.mkQuery (Some "2") (Some "8") (Some "views").

Definition page_zero : Api.Posts.Query :=
  Api.Posts.mkQuery (Some "0") None None.

Definition third_page_of_eight : Api.Posts.Query :=
  Api.Posts.mkQuery (Some "3") (Some "8") None.

(** The store of the route of one post, as built at load time. *)
Definition detail_store : Api.Detail.World :=
  Api.Detail.mkWorld (Api.Detail.initial_posts one_half steady_clock) 0.

Definition retitle : option Val :=
  Some (VObj [("title", VStr "New title"); ("content", VStr "")]).

Definition numeric_name_signup : option Val :=
  Some (VObj [("name", VNum 5); ("email", VStr "five@example.com")]).

Definition list_store : Api.Posts.World := Api.Posts.mkWorld twenty_posts 0.

(** A [toLowerCase] for the samples: the letters A to Z. *)
Definition lower_ascii (c : ascii) : ascii :=
  let n := Ascii.nat_of_ascii c in
  if Nat.leb 65 n && Nat.leb n 90 then Ascii.ascii_of_nat (n + 32) else c.

Fixpoint toLowerCase (s : string) : string :=
  match s with
  | EmptyString => EmptyString
  | String c s' => String (lower_ascii c) (toLowerCase s')
  end.

(** The environment of the stress samples: a target that answers every
    request with 200 in 3500 ms, and a clock that advances by 4000 ms
    from one reading to the next. *)
Definition slow_ok (n : nat) (rq : Stress.Request) : Stress.Response :=
  Stress.mkResponse 200 3500.

Definition coarse_clock (n : nat) : Z := 4000 * Z.of_nat n.

Definition stress_fresh : Stress.World :=
  Stress.mkWorld (Stress.mkRegisters [] [] [] []) 0 0 0.

(** A run whose only finding is a slow 99th percentile. *)
Definition slow_tail : Stress.Metrics :=
  Stress.mkMetrics (5 # 100) 2500 12000 (Some 40%Q).



(** A target that answers with 200, but only after 800 ms. *)
Definition sluggish (n : nat) (rq : Spike.Request) : Spike.Response :=
  Spike.mkResponse 200 (Some (VObj [("status", VStr "ok")])) 800.

(** The figures of a spike run in which no integrity check passed. *)
Definition no_check_passed : Spike.Metrics :=
  Spike.mkMetrics (Some 0%Q) (Some 20%Q) (Some 0%Q) (Some 0%Q) 0 50 80.

(** A soak run with flat memory, no degradation and no failure. *)
Definition flat_memory : Soak.Metrics :=
  Soak.mkMetrics (Some (Soak.mkMemoryUsage 100 100 100)) (Some 0%Q) (Some 0%Q) 0 100.

(** Clock readings of an iteration two seconds into the recovery. *)
Definition two_seconds_in : nat → Z :=
  readings [243000; 243000; 243020; 243020].


Definition post_draft : option Val :=
  Some (VObj [("title", VStr "Hello"); ("content", VStr "World");
              ("authorId", VStr "user-3")]).

End Samples.

(* ===================================================================== *)
(** * Properties                                                          *)
(* ===================================================================== *)

(** ** Host language facts *)

Lemma ltb_spec (a b : Q) : ltb a b = true ↔ (a < b)%Q.
Proof.
  unfold ltb. rewrite negb_true_iff.
  split.
  - intros H. apply Qnot_le_lt. intros Hle.
    apply Qle_bool_iff in Hle. congruence.
  - intros H. destruct (Qle_bool b a) eqn:E; [|reflexivity].
    apply Qle_bool_iff in E. exfalso. exact (Qlt_not_le _ _ H E).
Qed.

Lemma ltb_false (a b : Q) : ltb a b = false ↔ (b <= a)%Q.
Proof.
  unfold ltb. rewrite negb_false_iff. apply Qle_bool_iff.
Qed.

Lemma gtb_spec (a b : Q) : gtb a b = true ↔ (b < a)%Q.
Proof. apply ltb_spec. Qed.

Lemma gtb_false (a b : Q) : gtb a b = false ↔ (a <= b)%Q.
Proof. apply ltb_false. Qed.

(** Unfolding the monad: what a bind, a catch and the primitive effects
    compute. *)
Ltac eff_unfold :=
  unfold try_catch, or_type_error, or_throw, throw, gets, modify,
         mbind, mret, eff_mbind, eff_mret, eff_bind, eff_ret in *.

(** Case analysis on a scrutinee that contains no further case analysis:
    the innermost decision the code takes next. *)
Ltac destruct_atom :=
  match goal with
  | |- context [match ?x with _ => _ end] =>
      lazymatch x with
      | context [match _ with _ => _ end] => fail
      | _ => destruct x eqn:?
      end
  end.

(** ** The mock API *)

Section ApiFacts.
Import Api.

Lemma get_or_zero_default (counts : gmap string Z) (id : string) :
  get_or_zero counts id = default 0 (counts !! id).
Proof.
  unfold get_or_zero. destruct (counts !! id) as [n|]; simpl; [|reflexivity].
  destruct (Z.eqb_spec n 0); congruence.
Qed.

(** C9. For every id, seen or not, the view and the like route answer with
    status 200 and [success: true], the returned count is the stored count
    (0 when the id is unseen) plus one, and that count is what the route
    stores for the id; no error is reported. *)
Theorem view_like_return_stored_plus_one
  (id : string) (viewCounts likeCounts : gmap string Z) :
  let v := View.POST id viewCounts in
  let l := Like.POST id likeCounts in
  (status v.1 = 200 ∧ success v.1 = true ∧ error v.1 = None ∧
   data v.1 = Some (View.mkData (default 0 (viewCounts !! id) + 1)) ∧
   v.2 !! id = Some (default 0 (viewCounts !! id) + 1)) ∧
  (status l.1 = 200 ∧ success l.1 = true ∧ error l.1 = None ∧
   data l.1 = Some (Like.mkData (default 0 (likeCounts !! id) + 1)) ∧
   l.2 !! id = Some (default 0 (likeCounts !! id) + 1)).
Proof.
  unfold View.POST, Like.POST; simpl.
  rewrite !get_or_zero_default, !lookup_insert_eq.
  repeat split.
Qed.

End ApiFacts.

Section UsersFacts.
Import Api Api.Users.
Variable clock : nat → Z.

(** Every request is answered, and in exactly one of three ways. *)
Lemma users_POST_cases (request : option Val) (w : World) :
  ∃ resp w', POST clock request w = (Ok resp, w') ∧
    ((status resp = 400 ∧ success resp = false ∧ users w' = users w ∧
      complete request = false) ∨
     (status resp = 409 ∧ success resp = false ∧ users w' = users w ∧
      complete request = true ∧
      email_taken (users w) (submitted_email request) = true) ∨
     (status resp = 201 ∧ success resp = true ∧
      complete request = true ∧
      email_taken (users w) (submitted_email request) = false ∧
      ∃ u, users w' = users w ++ [u] ∧ data resp = Some u ∧
           email u = submitted_email request)).
Proof.
  unfold POST, complete, submitted_email, has_field, users_push, Date_now.
  eff_unfold.
  destruct request as [body|]; simpl; [|eauto 10].
  destruct (get body "name") as [n|] eqn:Hn; simpl; [|eauto 10].
  destruct (get body "email") as [e|] eqn:He; simpl;
    [|rewrite andb_false_r; eauto 10].
  destruct (truthy n) eqn:Tn; simpl; [|eauto 10].
  destruct (truthy e) eqn:Te; simpl; [|eauto 10].
  destruct (email_taken (users w) e) eqn:Hdup; simpl; [eauto 12|].
  destruct (get body "avatar") as [a|] eqn:Ha; simpl.
  - destruct (truthy a); simpl; do 2 eexists; (split; [reflexivity|]);
      right; right; simpl; eauto 10.
  - destruct body; simpl in *; congruence.
Qed.

(** C10. The users route answers every request. A body without a name or
    without an email gets 400, a complete body whose email is already
    stored gets 409 with [success: false], and in both cases the stored
    list is the one before the request; the list changes only together
    with a 201, and then by one user appended at the end. *)
Theorem users_POST_atomic_on_error (request : option Val) (w : World) :
  ∃ resp w', POST clock request w = (Ok resp, w') ∧
    (complete request = false →
       status resp = 400 ∧ success resp = false ∧ users w' = users w) ∧
    (complete request = true →
     email_taken (users w) (submitted_email request) = true →
       status resp = 409 ∧ success resp = false ∧ users w' = users w) ∧
    (status resp ≠ 201 → users w' = users w) ∧
    (users w' ≠ users w →
       status resp = 201 ∧ ∃ u, users w' = users w ++ [u] ∧ data resp = Some u).
Proof.
  destruct (users_POST_cases request w) as (resp & w' & Hrun & Hcases).
  exists resp, w'. split; [exact Hrun|].
  destruct Hcases as [(Hs & Hf & Hu & Hc) | [(Hs & Hf & Hu & Hc & Hd) | (Hs & Hf & Hc & Hd & u & Hu & Hdata & _)]].
  - split_and!; intros; split_and?; congruence.
  - split_and!; intros; split_and?; congruence.
  - split_and!; intros; split_and?; try congruence; eauto.
Qed.

End UsersFacts.

Lemma users_POST_atomic_on_error_witness :
  ∃ resp w',
    Api.Users.POST Samples.steady_clock Samples.duplicate_signup Samples.one_user
      = (Ok resp, w') ∧
    Api.status resp = 409 ∧ Api.success resp = false ∧
    Api.Users.users w' = Api.Users.users Samples.one_user.
Proof.
  destruct (users_POST_atomic_on_error Samples.steady_clock
              Samples.duplicate_signup Samples.one_user)
    as (resp & w' & Hrun & _ & H409 & _).
  exists resp, w'. split; [exact Hrun|].
  apply H409; reflexivity.
Defined.

(** The three answers on a list of one user: a body without a name, a
    body that repeats the stored email, and a new user. *)
Example users_POST_three_answers :
  let answer request :=
    match Api.Users.POST Samples.steady_clock request Samples.one_user with
    | (Ok resp, w') => Some (Api.status resp, length (Api.Users.users w'))
    | (Throw _, _) => None
    end in
  answer Samples.nameless_signup = Some (400, 1%nat) ∧
  answer Samples.duplicate_signup = Some (409, 1%nat) ∧
  answer Samples.fresh_signup = Some (201, 2%nat) ∧
  answer None = Some (400, 1%nat) ∧
  answer (Some VNull) = Some (400, 1%nat).
Proof. vm_compute. repeat split. Qed.

(** ** [stress.js]: the verdict *)

Section StressFacts.
Import Stress.

Lemma systemStatus_matches (metrics : Metrics) :
  matches (systemStatus metrics).1 metrics = true.
Proof.
  unfold systemStatus.
  repeat (match goal with |- context [if ?c then _ else _] => destruct c eqn:? end);
    simpl; assumption || reflexivity.
Qed.

Lemma systemStatus_worst (metrics : Metrics) (t : Status) :
  matches t metrics = true →
  (severity t ≤ severity (systemStatus metrics).1)%nat.
Proof.
  unfold systemStatus.
  repeat (match goal with |- context [if ?c then _ else _] => destruct c eqn:? end);
    destruct t; simpl; intros Ht; try lia; congruence.
Qed.

Lemma severity_inj (s t : Status) : severity s = severity t → s = t.
Proof. destruct s, t; simpl; intros H; congruence. Qed.

(** C2. When more than half of the requests failed the status is CRITICAL,
    the advice contains the circuit-breaker line and the retry line, and
    the printed advice is that list joined by line feeds. In general the
    status is a tier whose guard holds, and no tier whose guard holds is
    more severe, in the order HEALTHY < WARNING < SLOW < DEGRADED <
    CRITICAL. *)
Theorem stress_status_is_worst_match (metrics : Metrics) :
  let s := handleSummary metrics in
  ((5 # 10 < http_req_failed_rate metrics)%Q →
     summary_status s = CRITICAL ∧
     "• Implement circuit breakers to handle failures gracefully"
       ∈ recommendations metrics (summary_status s) ∧
     "• Add retry logic with exponential backoff"
       ∈ recommendations metrics (summary_status s) ∧
     summary_recommendations s
       = join nl (recommendations metrics (summary_status s))) ∧
  (matches (summary_status s) metrics = true ∧
   ∀ t, matches t metrics = true →
        (severity t ≤ severity (summary_status s))%nat) ∧
  (severity HEALTHY < severity WARNING < severity SLOW)%nat ∧
  (severity SLOW < severity DEGRADED < severity CRITICAL)%nat.
Proof.
  assert (Hs : summary_status (handleSummary metrics) = (systemStatus metrics).1).
  { unfold handleSummary. destruct (systemStatus metrics); reflexivity. }
  assert (Hr : summary_recommendations (handleSummary metrics)
               = generateRecommendations metrics (systemStatus metrics).1).
  { unfold handleSummary. destruct (systemStatus metrics); reflexivity. }
  simpl. rewrite Hs, Hr. split_and!; simpl; try lia.
  - intros Hrate.
    assert (H5 : gtb (http_req_failed_rate metrics) (5 # 10) = true)
      by (apply gtb_spec; exact Hrate).
    assert (H1 : gtb (http_req_failed_rate metrics) (1 # 10) = true)
      by (apply gtb_spec; lra).
    assert (Hc : (systemStatus metrics).1 = CRITICAL)
      by (unfold systemStatus; rewrite H5; reflexivity).
    rewrite Hc. unfold generateRecommendations, recommendations.
    rewrite H1. simpl. split_and!; try reflexivity; set_solver.
  - apply systemStatus_matches.
  - apply systemStatus_worst.
Qed.

End StressFacts.

Lemma stress_status_is_worst_match_witness :
  Stress.summary_status (Stress.handleSummary Samples.failing_run) = Stress.CRITICAL.
Proof.
  destruct (stress_status_is_worst_match Samples.failing_run) as [H _].
  apply H. reflexivity.
Defined.

(** ** [spike.js]: the advice *)

Section SpikeAdviceFacts.
Import Spike.

(** With no breach the four conditional blocks contribute nothing, and the
    closing block of three lines is what remains. *)
Lemma spike_recommendations_quiet
  (metrics : Metrics) (spikeErrors avgRecovery integrityRate : Q) :
  (spikeErrors <= 100)%Q →
  (avgRecovery <= 5000)%Q →
  (99 # 100 <= integrityRate)%Q →
  (http_req_duration_p99 metrics <= 10000)%Q →
  recommendations metrics spikeErrors avgRecovery integrityRate =
    ["• System performs well under spike conditions";
     "• Consider current configuration adequate";
     "• Monitor for edge cases in production"].
Proof.
  intros He Hr Hi Hp. unfold recommendations.
  apply gtb_false in He, Hr, Hp. apply ltb_false in Hi.
  rewrite He, Hr, Hi, Hp. reflexivity.
Qed.

(** C3, as the script has it. When the spike error count is at most 100,
    the average recovery time at most 5000 ms, the integrity rate at least
    0.99 and the 99th percentile at most 10000 ms, the recommendations are
    non-empty and are exactly the closing block of three lines, printed
    one per line. *)
Theorem spike_no_breach_gives_closing_block
  (metrics : Metrics) (spikeErrors avgRecovery integrityRate : Q) :
  (spikeErrors <= 100)%Q →
  (avgRecovery <= 5000)%Q →
  (99 # 100 <= integrityRate)%Q →
  (http_req_duration_p99 metrics <= 10000)%Q →
  recommendations metrics spikeErrors avgRecovery integrityRate ≠ [] ∧
  recommendations metrics spikeErrors avgRecovery integrityRate =
    ["• System performs well under spike conditions";
     "• Consider current configuration adequate";
     "• Monitor for edge cases in production"] ∧
  generateSpikeRecommendations metrics spikeErrors avgRecovery integrityRate =
    "• System performs well under spike conditions" +:+ nl +:+
    "• Consider current configuration adequate" +:+ nl +:+
    "• Monitor for edge cases in production".
Proof.
  intros He Hr Hi Hp. unfold generateSpikeRecommendations.
  rewrite (spike_recommendations_quiet _ _ _ _ He Hr Hi Hp).
  split_and!; [discriminate | reflexivity | reflexivity].
Qed.

End SpikeAdviceFacts.

Lemma spike_no_breach_gives_closing_block_witness :
  Spike.recommendations Samples.quiet_spike 0 20 1 =
    ["• System performs well under spike conditions";
     "• Consider current configuration adequate";
     "• Monitor for edge cases in production"].
Proof.
  apply (spike_no_breach_gives_closing_block Samples.quiet_spike 0 20 1);
    vm_compute; discriminate.
Defined.

(** C3 as worded fails: on a quiet run (no spike error, 20 ms average
    recovery, full integrity, 80 ms 99th percentile) no breach occurs, yet
    the recommendations are not a list of one message. *)
Lemma spike_no_breach_not_a_single_message :
  (0 <= 100)%Q ∧ (20 <= 5000)%Q ∧ (99 # 100 <= 1)%Q ∧
  (Spike.http_req_duration_p99 Samples.quiet_spike <= 10000)%Q ∧
  ¬ ∃ message : string,
      Spike.recommendations Samples.quiet_spike 0 20 1 = [message].
Proof.
  split_and!; try (vm_compute; discriminate).
  intros [message H]. vm_compute in H. discriminate H.
Qed.

(** The same through [handleSummary], which reads the custom metrics with
    a default: the quiet run gets the closing block. *)
Example spike_summary_quiet_run :
  Spike.handleSummary_recommendations Samples.quiet_spike =
    "• System performs well under spike conditions" +:+ nl +:+
    "• Consider current configuration adequate" +:+ nl +:+
    "• Monitor for edge cases in production".
Proof. vm_compute. reflexivity. Qed.

(** The stress script behaves alike: with no breach its array stays empty
    and the returned text is a fixed pair of lines. *)
Lemma stress_no_breach_gives_closing_pair (metrics : Stress.Metrics) :
  (Stress.http_req_failed_rate metrics <= 1 # 10)%Q →
  (Stress.http_req_duration_p95 metrics <= 3000)%Q →
  (∀ c, Stress.slow_requests_count metrics = Some c → (c <= 100)%Q) →
  let s := Stress.handleSummary metrics in
  Stress.summary_status s ∈ [Stress.HEALTHY; Stress.WARNING] ∧
  Stress.recommendations metrics (Stress.summary_status s) = [] ∧
  Stress.summary_recommendations s =
    "• System performed well under stress" +:+ nl +:+
    "• Consider current configuration adequate".
Proof.
  intros He Hp Hc.
  assert (H5 : gtb (Stress.http_req_failed_rate metrics) (5 # 10) = false)
    by (apply gtb_false; lra).
  assert (H3 : gtb (Stress.http_req_failed_rate metrics) (3 # 10) = false)
    by (apply gtb_false; lra).
  assert (H1 : gtb (Stress.http_req_failed_rate metrics) (1 # 10) = false)
    by (apply gtb_false; lra).
  assert (Hs : gtb (Stress.http_req_duration_p95 metrics) 5000 = false)
    by (apply gtb_false; lra).
  assert (Hq : gtb (Stress.http_req_duration_p95 metrics) 3000 = false)
    by (apply gtb_false; lra).
  assert (Hslow : match Stress.slow_requests_count metrics with
                  | Some c => gtb c 100
                  | None => false
                  end = false).
  { destruct (Stress.slow_requests_count metrics) as [c|]; [|reflexivity].
    apply gtb_false. apply Hc. reflexivity. }
  unfold Stress.handleSummary, Stress.systemStatus.
  rewrite H5, H3, Hs.
  destruct (gtb (Stress.http_req_duration_p99 metrics) 10000); simpl;
    unfold Stress.generateRecommendations, Stress.recommendations;
    rewrite H1, Hq, Hslow; simpl; split_and!; try reflexivity; set_solver.
Qed.

(** ** [soak.js]: the memory verdict *)

Section SoakVerdictFacts.
Import Soak.


(** The first line of the assessment is always one of the three memory
    lines, whatever the inputs. *)
Lemma soak_memory_line_total
  (metrics : Metrics) (memoryGrowth degradationRate duration : Q) :
  head (assessment metrics memoryGrowth degradationRate duration) ∈
    [Some "✅ Memory usage stable (< 10MB/hour growth)";
     Some "⚠️ Moderate memory growth detected (10-50MB/hour)";
     Some "❌ Significant memory growth (> 50MB/hour) - possible leak"].
Proof.
  unfold assessment; simpl.
  destruct (num_ltb _ 10); [set_solver|].
  destruct (num_ltb _ 50); set_solver.
Qed.


End SoakVerdictFacts.


(** The same through [handleSummary]: sixty minutes on the clock, samples
    between 100 MB and 160 MB, no degradation and no failed request. *)
Example soak_summary_rising_memory :
  Soak.handleSummary_stability Samples.rising_memory 0 3600000 =
    join nl
      ["❌ Significant memory growth (> 50MB/hour) - possible leak";
       "✅ Performance remained consistent";
       "✅ Very low error rate maintained";
       nl +:+ "⚠️ ATTENTION NEEDED: System shows signs of instability"].
Proof. vm_compute. reflexivity. Qed.


(** ** [spike.js]: the integrity check *)

Section SpikeIntegrityFacts.
Import Spike.

Variable clock : nat → Z.
Variable random : nat → Q.
Variable server : nat → Request → Response.
Variable BASE_URL : string.

Abbreviation verify := (verifyDataIntegrity random server BASE_URL).

Lemma pick_some_nonempty (posts : list (string * PostData)) (r : Q) (id : string) :
  pick posts r = Some id → Z.eqb (map_size posts) 0 = false.
Proof.
  destruct posts as [|p posts]; [|intros _; reflexivity].
  unfold pick, at_index. simpl. destruct (Z.ltb _ _); [discriminate|].
  rewrite lookup_nil. discriminate.
Qed.



(** The check always returns: whatever it reads is caught. *)

(** Run the check up to the request, for a drawn id that is registered
    and not yet verified. *)
Ltac verify_start Hpick Hdata Hnew :=
  let Hsize := fresh "Hsize" in
  pose proof (pick_some_nonempty _ _ _ Hpick) as Hsize;
  unfold Spike.verifyDataIntegrity, Math_random, http_get, send, JSON_parse,
         dataIntegrity_add, refetch in *;
  eff_unfold;
  cbv beta iota; rewrite Hsize; cbv beta iota;
  unfold pick in Hpick; cbn [draws testData requests]; rewrite Hpick;
  cbn [mbind option_bind]; rewrite Hdata;
  rewrite bool_decide_eq_false_2 by exact Hnew;
  simpl.


(** A refetch answered with status 200 and a body that parses but has no
    truthy [success] or no truthy [data] records nothing: the world is the
    one after the draw and the request. *)
Lemma verify_refetch_bare_envelope (w : World) (id : string) (original : PostData)
    (body : Val) :
  pick (createdPosts (testData w)) (random (draws w)) = Some id →
  assoc id (createdPosts (testData w)) = Some original →
  id ∉ verifiedPosts (testData w) →
  let res := server (requests w) (refetch BASE_URL id) in
  status res = 200 →
  json res = Some body →
  (∃ s, get body "success" = Some s ∧ truthy s = false) ∨
  (∃ d, get body "data" = Some d ∧ truthy d = false) →
  verify w = (Ok tt, after_refetch w).
Proof.
  intros Hpick Hdata Hnew. cbv zeta.
  verify_start Hpick Hdata Hnew.
  set (res := server (requests w) _). intros Hs Hj Hbare.
  rewrite Hs, Hj. simpl.
  destruct Hbare as [(s & Hg & Ht) | (d & Hg & Ht)].
  - rewrite Hg. simpl. rewrite Ht. reflexivity.
  - destruct (get body "success") as [s|] eqn:Hsucc.
    + simpl. destruct (truthy s); [|reflexivity].
      rewrite Hg. simpl. rewrite Ht. reflexivity.
    + destruct body; simpl in *; congruence.
Qed.

(** What the check never touches. *)
Lemma verify_frame (w w' : World) (r : Res unit) :
  verify w = (r, w') →
  r = Ok tt ∧
  recoveryTime (registers w') = recoveryTime (registers w) ∧
  errorRate (registers w') = errorRate (registers w) ∧
  spikeErrors (registers w') = spikeErrors (registers w) ∧
  createdPosts (testData w') = createdPosts (testData w) ∧
  startTime (testData w') = startTime (testData w) ∧
  spikeStartTime (testData w') = spikeStartTime (testData w) ∧
  recoveryStartTime (testData w') = recoveryStartTime (testData w) ∧
  ticks w' = ticks w.
Proof.
  unfold Spike.verifyDataIntegrity, Math_random, http_get, send, JSON_parse,
         dataIntegrity_add.
  eff_unfold.
  repeat (simpl; destruct_atom);
    intros H; inversion H; subst; simpl; repeat split.
Qed.
End SpikeIntegrityFacts.

Section SpikeRecoveryFacts.
Import Spike.

Variable clock : nat → Z.
Variable random : nat → Q.
Variable server : nat → Request → Response.
Variable show_number : Q → string.
Variable toISOString : Z → string.
Variable BASE_URL : string.

Abbreviation iteration :=
  (default_function clock random server show_number toISOString BASE_URL).

#[local] Arguments Spike.verifyDataIntegrity : simpl never.
#[local] Arguments Spike.is_set : simpl never.

(** X28. The RECOVERING to NORMAL step: with both timestamps set, a probe
    answered with 200 in under 500 ms and more than 5000 ms on the clock
    since the recovery began, the iteration clears both timestamps; the
    sample it adds to the recovery-time register is the round trip of the
    probe. *)
Lemma recovery_transition (currentVUs : Z) (w : World) (t_spike t_recovery : Z) :
  currentVUs <= 100 →
  spikeStartTime (testData w) = Some t_spike →
  recoveryStartTime (testData w) = Some t_recovery →
  t_recovery ≠ 0 →
  let k := ticks w in
  let probe := server (requests w) (mkRequest "GET" (BASE_URL +:+ "/api/health") None) in
  status probe = 200 →
  (timings_duration probe < 500)%Q →
  5000 < clock (3 + k)%nat - t_recovery →
  ∃ w', iteration currentVUs w = (Ok tt, w') ∧
        recoveryTime (registers w')
          = recoveryTime (registers w) ++ [clock (2 + k)%nat - clock (1 + k)%nat] ∧
        spikeStartTime (testData w') = None ∧
        recoveryStartTime (testData w') = None.
Proof.
  intros Hvu Hs Hr Hnz k probe Hst Hdur Hdwell.
  assert (Hgt : Z.gtb currentVUs 100 = false) by lia.
  assert (Hset : is_set (Some t_recovery) = true).
  { unfold is_set. destruct (Z.eqb_spec t_recovery 0); [contradiction|reflexivity]. }
  apply ltb_spec in Hdur.
  assert (Hd : Z.gtb (clock (3 + k)%nat - t_recovery) 5000 = true) by lia.
  unfold default_function, getCurrentStage, measureRecovery, Date_now, http_get,
         send, recoveryTime_add, Math_random, sleep.
  eff_unfold.
  simpl. destruct (startTime (testData w)) as [t0|]; simpl; rewrite Hgt; simpl;
    rewrite Hs, Hr, Hset, andb_false_r; simpl; rewrite Hr, Hset; simpl.
  all: fold probe; rewrite Hst; simpl; rewrite Hdur; simpl.
  all: change (S (S (S (ticks w)))) with (3 + k)%nat; rewrite Hd; simpl.
  all: destruct (ltb (random (draws w)) (2 # 10)); simpl;
    [|eexists; split; [reflexivity|]; simpl; repeat split].
  all: match goal with
       | |- context [Spike.verifyDataIntegrity _ _ _ ?W] =>
           destruct (Spike.verifyDataIntegrity random server BASE_URL W)
             as [r w1] eqn:Hv;
           apply verify_frame in Hv;
           destruct Hv as (-> & Hrt & _ & _ & _ & _ & Hss & Hrs & _)
       end.
  all: eexists; split; [reflexivity|]; simpl; rewrite Hrt, Hss, Hrs; simpl;
    repeat split.
Qed.

(** X29. A probe answered with 200 in under 500 ms before the dwell time
    of 5000 ms has passed adds its round trip to the recovery-time
    register and leaves both timestamps in place. *)
Lemma recovery_pending_probe (currentVUs : Z) (w : World) (t_spike t_recovery : Z) :
  currentVUs <= 100 →
  spikeStartTime (testData w) = Some t_spike →
  recoveryStartTime (testData w) = Some t_recovery →
  t_recovery ≠ 0 →
  let k := ticks w in
  let probe := server (requests w) (mkRequest "GET" (BASE_URL +:+ "/api/health") None) in
  status probe = 200 →
  (timings_duration probe < 500)%Q →
  clock (3 + k)%nat - t_recovery <= 5000 →
  ∃ w', iteration currentVUs w = (Ok tt, w') ∧
        recoveryTime (registers w')
          = recoveryTime (registers w) ++ [clock (2 + k)%nat - clock (1 + k)%nat] ∧
        spikeStartTime (testData w') = Some t_spike ∧
        recoveryStartTime (testData w') = Some t_recovery.
Proof.
  intros Hvu Hs Hr Hnz k probe Hst Hdur Hdwell.
  assert (Hgt : Z.gtb currentVUs 100 = false) by lia.
  assert (Hset : is_set (Some t_recovery) = true).
  { unfold is_set. destruct (Z.eqb_spec t_recovery 0); [contradiction|reflexivity]. }
  apply ltb_spec in Hdur.
  assert (Hd : Z.gtb (clock (3 + k)%nat - t_recovery) 5000 = false) by lia.
  unfold default_function, getCurrentStage, measureRecovery, Date_now, http_get,
         send, recoveryTime_add, Math_random, sleep.
  eff_unfold.
  simpl. destruct (startTime (testData w)) as [t0|]; simpl; rewrite Hgt; simpl;
    rewrite Hs, Hr, Hset, andb_false_r; simpl; rewrite Hr, Hset; simpl.
  all: fold probe; rewrite Hst; simpl; rewrite Hdur; simpl.
  all: change (S (S (S (ticks w)))) with (3 + k)%nat; rewrite Hd; simpl.
  all: destruct (ltb (random (draws w)) (2 # 10)); simpl;
    [|eexists; split; [reflexivity|]; simpl; repeat split; assumption].
  all: match goal with
       | |- context [Spike.verifyDataIntegrity _ _ _ ?W] =>
           destruct (Spike.verifyDataIntegrity random server BASE_URL W)
             as [r w1] eqn:Hv;
           apply verify_frame in Hv;
           destruct Hv as (-> & Hrt & _ & _ & _ & _ & Hss & Hrs & _)
       end.
  all: eexists; split; [reflexivity|]; simpl; rewrite Hrt, Hss, Hrs; simpl;
    repeat split; assumption.
Qed.
End SpikeRecoveryFacts.

(** C6, where the script falls short. One post is registered and
    unverified; the refetch is answered with status 200 and a body that
    parses but carries neither [success] nor [data]. The check returns
    normally and has sent its request, and the integrity register has
    received no observation. *)
Theorem verify_bare_envelope_records_nothing :
  let run := Spike.verifyDataIntegrity Samples.zero Samples.plain_ok
               Samples.base_url Samples.one_created_post in
  run.1 = Ok tt ∧
  Spike.requests run.2 = S (Spike.requests Samples.one_created_post) ∧
  Spike.dataIntegrity (Spike.registers run.2) = [] ∧
  Spike.verifiedPosts (Spike.testData run.2) = ∅.
Proof. vm_compute. repeat split. Qed.

(** The trace 10, 10, 300, 300, 10, 10 of the specification: one cycle is
    gone through and both timestamps end cleared, but the recovery-time
    register holds two samples, one per responsive probe, each the round
    trip of that probe; the 9021 ms from the start of the recovery to its
    confirmation are not among them. *)
Example spike_trace_one_cycle :
  let run := Spike.iterations Samples.one_cycle Samples.one_half Samples.plain_ok
               Samples.show_number Samples.toISOString Samples.base_url
               [10; 10; 300; 300; 10; 10] Samples.fresh in
  run.1 = Ok tt ∧
  Spike.spikeStartTime (Spike.testData run.2) = None ∧
  Spike.recoveryStartTime (Spike.testData run.2) = None ∧
  Spike.recoveryTime (Spike.registers run.2) = [20; 20].
Proof. vm_compute. repeat split. Qed.


(** C1, where the script falls short. In the RECOVERING state, nine seconds
    after the recovery began, a probe answered with 200 in 20 ms makes the
    iteration clear both timestamps. The elapsed time since the recovery
    began is 9021 ms; the only sample the recovery-time register receives
    is 20, the round trip of the probe. *)
Theorem recovery_duration_not_recorded :
  let run := Spike.default_function Samples.nine_seconds_in Samples.one_half
               Samples.plain_ok Samples.show_number Samples.toISOString
               Samples.base_url 10 Samples.recovering in
  run.1 = Ok tt ∧
  Spike.spikeStartTime (Spike.testData run.2) = None ∧
  Spike.recoveryStartTime (Spike.testData run.2) = None ∧
  Spike.recoveryTime (Spike.registers run.2) = [20] ∧
  Samples.nine_seconds_in 4 - 241000 = 9021 ∧
  9021 ∉ Spike.recoveryTime (Spike.registers run.2).
Proof.
  cbv zeta. split_and!; try (vm_compute; reflexivity).
  intros H.
  assert (E : Spike.recoveryTime (Spike.registers
                (Spike.default_function Samples.nine_seconds_in Samples.one_half
                   Samples.plain_ok Samples.show_number Samples.toISOString
                   Samples.base_url 10 Samples.recovering).2) = [20])
    by (vm_compute; reflexivity).
  rewrite E in H. apply list_elem_of_singleton in H. discriminate H.
Qed.

(** ** [soak.js]: the cache *)

Section OrderedMapFacts.
Context {V : Type}.
Implicit Types (m : list (string * V)) (k : string) (v : V).

Lemma map_set_keys k v m :
  map_keys (map_set k v m) =
    if bool_decide (k ∈ map_keys m) then map_keys m else map_keys m ++ [k].
Proof.
  unfold map_keys. induction m as [|[k' v'] m IH].
  - reflexivity.
  - cbn [map_set]. destruct (String.eqb_spec k k') as [->|Hne].
    + rewrite bool_decide_eq_true_2 by (rewrite fmap_cons; apply list_elem_of_here).
      reflexivity.
    + rewrite !fmap_cons, IH. cbn [fst].
      destruct (bool_decide (k ∈ m.*1)) eqn:E.
      * apply bool_decide_eq_true_1 in E.
        rewrite bool_decide_eq_true_2 by (apply list_elem_of_further; exact E).
        reflexivity.
      * apply bool_decide_eq_false_1 in E.
        rewrite bool_decide_eq_false_2; [reflexivity|].
        intros H. apply elem_of_cons in H. destruct H; congruence.
Qed.



End OrderedMapFacts.

Section SoakCacheFacts.
Import Soak.

Variable clock : nat → Z.
Variable server : nat → string → Response.
Variable BASE_URL : string.






End SoakCacheFacts.

Section SoakRunFacts.
Import Soak.

Variable clock : nat → Z.
Variable server : nat → string → Response.
Variable BASE_URL : string.

Abbreviation run_call := (call clock server BASE_URL).
Abbreviation run_trace := (trace clock server BASE_URL).

Ltac soak_unfold :=
  unfold call, resourceIntensiveTask, monitorSystemHealth,
         trackPerformanceDegradation, Date_now, http_get, resourceLeaks_add,
         memoryTrend_add, currentMemory_add, degradationRate_add,
         cache_of, baseline_responseTime, baseline_memory in *;
  eff_unfold.

(** No scenario throws. *)
Lemma call_returns (c : Call) (w : World) : ∃ w', run_call c w = (Ok tt, w').
Proof.
  destruct c; soak_unfold; simpl;
    repeat (destruct_atom; simpl); eexists; reflexivity.
Qed.

(** A property every call preserves holds along the whole run. *)
Lemma trace_invariant (P : World → Prop) :
  (∀ c w w', P w → run_call c w = (Ok tt, w') → P w') →
  ∀ cs w, P w → Forall P (run_trace cs w).
Proof.
  intros Hstep cs. induction cs as [|c cs IH]; intros w Hw; simpl.
  - constructor.
  - destruct (call_returns c w) as [w' Hc]. rewrite Hc.
    constructor; [|apply IH]; eapply Hstep; eauto.
Qed.







End SoakRunFacts.


(** A task run on a cache at capacity: the new entry is last, the entry
    that was first is gone, and the size is again 100. *)
Example task_at_capacity_evicts_first :
  let w' := (Soak.resourceIntensiveTask Samples.instant_then_slow Samples.healthy
               Samples.base_url Samples.at_capacity).2 in
  head (map_keys (Soak.cache_of Samples.at_capacity)) = Some "task-0" ∧
  head (map_keys (Soak.cache_of w')) = Some "task-1" ∧
  List.last (map_keys (Soak.cache_of w')) "" = "task-1000" ∧
  map_size (Soak.cache_of w') = 100.
Proof. vm_compute. repeat split. Qed.

(** C7, where the script falls short. Two performance checks in a row: the
    first measures a response time of 0 ms and stores it as the baseline,
    the second measures 5 ms and, finding the stored 0 falsy, stores 5 in
    its place. *)
Theorem response_time_baseline_overwritten :
  Soak.baseline_responseTime <$>
    Soak.trace Samples.instant_then_slow Samples.healthy Samples.base_url
      [Soak.CallTrackPerformanceDegradation; Soak.CallTrackPerformanceDegradation]
      (Soak.initial_world 1000)
  = [Some 0; Some 5].
Proof. vm_compute. reflexivity. Qed.

(* ===================================================================== *)
(** * Further properties of the routes and the scripts                    *)
(* ===================================================================== *)

(** ** Sorting and slicing *)

Section SortFacts.
Context {A : Type} (compare : A → A → Z) (key : A → Z).
Hypothesis compare_key : ∀ a b, compare a b = key b - key a.

Lemma insert_sorted_Permutation (x : A) (l : list A) :
  insert_sorted compare x l ≡ₚ x :: l.
Proof.
  induction l as [|y l IH]; simpl; [reflexivity|].
  destruct (Z.leb (compare x y) 0); [reflexivity|].
  rewrite IH. apply Permutation_swap.
Qed.

Lemma sort_Permutation (l : list A) : sort compare l ≡ₚ l.
Proof.
  induction l as [|x l IH]; simpl; [reflexivity|].
  rewrite insert_sorted_Permutation, IH. reflexivity.
Qed.

Lemma insert_sorted_StronglySorted (x : A) (l : list A) :
  StronglySorted (λ a b, key b <= key a) l →
  StronglySorted (λ a b, key b <= key a) (insert_sorted compare x l).
Proof.
  induction l as [|y l IH]; intros Hl; simpl.
  - repeat constructor.
  - apply StronglySorted_inv in Hl. destruct Hl as [Hl Hy].
    destruct (Z.leb_spec (compare x y) 0) as [Hle|Hgt]; rewrite compare_key in *.
    + constructor; [constructor; assumption|].
      constructor; [lia|].
      eapply Forall_impl; [exact Hy|]. simpl. intros z Hz. lia.
    + constructor; [apply IH; exact Hl|].
      rewrite (insert_sorted_Permutation x l).
      constructor; [lia | exact Hy].
Qed.

Lemma sort_StronglySorted (l : list A) :
  StronglySorted (λ a b, key b <= key a) (sort compare l).
Proof.
  induction l as [|x l IH]; simpl; [constructor|].
  apply insert_sorted_StronglySorted, IH.
Qed.

End SortFacts.

Lemma Forall_sublist_of {A} (P : A → Prop) (k l : list A) :
  k `sublist_of` l → Forall P l → Forall P k.
Proof.
  induction 1 as [|x k l Hsub IH|x k l Hsub IH]; intros Hl.
  - constructor.
  - apply Forall_cons in Hl. destruct Hl. constructor; auto.
  - apply Forall_cons in Hl. destruct Hl. auto.
Qed.

Lemma StronglySorted_sublist {A} (R : relation A) (k l : list A) :
  k `sublist_of` l → StronglySorted R l → StronglySorted R k.
Proof.
  induction 1 as [|x k l Hsub IH|x k l Hsub IH]; intros Hl.
  - constructor.
  - apply StronglySorted_inv in Hl. destruct Hl as [Hl Hx].
    constructor; [apply IH, Hl|].
    eapply Forall_sublist_of; eassumption.
  - apply StronglySorted_inv in Hl. destruct Hl as [Hl _]. apply IH, Hl.
Qed.

Lemma slice_sublist {A} (l : list A) (start end_ : option Z) :
  slice l start end_ `sublist_of` l.
Proof.
  unfold slice. etransitivity; [apply sublist_take | apply sublist_drop].
Qed.

(** A window that starts at or after 0 and does not end before it starts
    is the plain [take] of a [drop]. *)
Lemma slice_window {A} (l : list A) (a n : Z) :
  0 <= a → 0 <= n →
  slice l (Some a) (Some (a + n)) = take (Z.to_nat n) (drop (Z.to_nat a) l).
Proof.
  intros Ha Hn. unfold slice, relative_index.
  destruct (Z.ltb_spec a 0) as [|_]; [lia|].
  destruct (Z.ltb_spec (a + n) 0) as [|_]; [lia|].
  set (len := Z.of_nat (length l)).
  destruct (Z_le_gt_dec len a) as [Hout|Hin].
  - rewrite !drop_ge by lia. rewrite !take_nil. reflexivity.
  - rewrite (Z.min_l a len) by lia.
    destruct (Z_le_gt_dec (a + n) len) as [Hfit|Hover].
    + rewrite Z.min_l by lia. f_equal. lia.
    + rewrite Z.min_r by lia.
      rewrite !take_ge; [reflexivity| |]; rewrite length_drop; lia.
Qed.

(** ** The list route of the posts *)

Section PostsRouteFacts.
Import Api Api.Posts.
Variable parseInt : string → option Z.
Variable clock : nat → Z.

Lemma compare_sort_key (sortBy : string) (a b : Post) :
  compare sortBy a b = sort_key sortBy b - sort_key sortBy a.
Proof.
  unfold compare, sort_key.
  destruct (String.eqb sortBy "views"); [reflexivity|].
  destruct (String.eqb sortBy "likes"); reflexivity.
Qed.

Lemma posts_GET_data (query : Query) (posts : list Post) :
  data (GET parseInt query posts).1 =
    Some (slice (sort (compare (param_or (query_sortBy query) "createdAt")) posts)
            (p ← parseInt (param_or (query_page query) "1");
             s ← parseInt (param_or (query_pageSize query) "10");
             Some ((p - 1) * s))
            (st ← (p ← parseInt (param_or (query_page query) "1");
                   s ← parseInt (param_or (query_pageSize query) "10");
                   Some ((p - 1) * s));
             s ← parseInt (param_or (query_pageSize query) "10");
             Some (st + s))).
Proof. reflexivity. Qed.

(** X1. Whatever the query, the list route answers 200 with
    [success: true] and the number of stored posts as the total; the posts
    it returns are in descending order of the chosen key (views, likes, or
    else the creation time) and each of them is a stored post, none
    returned more often than it is stored. *)
Theorem posts_GET_ordered_selection (query : Query) (posts : list Post) :
  let sortBy := param_or (query_sortBy query) "createdAt" in
  let answer := GET parseInt query posts in
  status answer.1 = 200 ∧ success answer.1 = true ∧
  total answer.2 = Z.of_nat (length posts) ∧
  ∃ page_data,
    data answer.1 = Some page_data ∧
    StronglySorted (λ a b, sort_key sortBy b <= sort_key sortBy a) page_data ∧
    page_data ⊆+ posts.
Proof.
  intros sortBy answer. split_and!; try reflexivity.
  eexists. split; [apply posts_GET_data|]. fold sortBy. split.
  - eapply StronglySorted_sublist; [apply slice_sublist|].
    apply sort_StronglySorted. apply compare_sort_key.
  - rewrite <- (sort_Permutation (compare sortBy) posts) at 2.
    apply sublist_submseteq, slice_sublist.
Qed.

(** X2. For a page number of at least 1 and a page size of at least 0, the
    returned posts are those ranked [(page - 1) * pageSize + 1] to
    [page * pageSize] in the sorted list, as far as it reaches: never more
    than [pageSize] of them. *)
Theorem posts_GET_page_window (query : Query) (posts : list Post) (p s : Z) :
  parseInt (param_or (query_page query) "1") = Some p →
  parseInt (param_or (query_pageSize query) "10") = Some s →
  1 <= p → 0 <= s →
  let sorted := sort (compare (param_or (query_sortBy query) "createdAt")) posts in
  let window := take (Z.to_nat s) (drop (Z.to_nat ((p - 1) * s)) sorted) in
  data (GET parseInt query posts).1 = Some window ∧
  Z.of_nat (length window) <= s.
Proof.
  intros Hp Hs Hp1 Hs0 sorted window. split.
  - rewrite posts_GET_data, Hp, Hs. simpl. fold sorted.
    rewrite slice_window by nia. reflexivity.
  - subst window. rewrite length_take. lia.
Qed.

(** X3. For a page number of at least 1 and a positive page size,
    [meta.totalPages] is a whole number, and the page holds at least one
    post exactly when its number is at most [meta.totalPages]. *)
Theorem posts_GET_totalPages (query : Query) (posts : list Post) (p s : Z) :
  parseInt (param_or (query_page query) "1") = Some p →
  parseInt (param_or (query_pageSize query) "10") = Some s →
  1 <= p → 0 < s →
  ∃ n page_data,
    totalPages (GET parseInt query posts).2 = Fin (inject_Z n) ∧
    data (GET parseInt query posts).1 = Some page_data ∧
    (page_data ≠ [] ↔ p <= n).
Proof.
  intros Hp Hs Hp1 Hs0.
  destruct (posts_GET_page_window query posts p s Hp Hs Hp1) as [Hdata _]; [lia|].
  set (sorted := sort (compare (param_or (query_sortBy query) "createdAt")) posts) in *.
  set (len := Z.of_nat (length posts)).
  assert (Hlen : Z.of_nat (length sorted) = len).
  { subst sorted len. rewrite (sort_Permutation _ posts). reflexivity. }
  exists (Qceiling (inject_Z len / inject_Z s)). eexists.
  split_and!; [|exact Hdata|].
  - unfold GET. simpl. rewrite Hs. unfold div.
    destruct (Qeq_bool (inject_Z s) 0) eqn:E; [|reflexivity].
    apply Qeq_bool_iff in E. unfold Qeq in E. simpl in E. lia.
  - assert (Hs' : (0 < inject_Z s)%Q) by (unfold Qlt; simpl; lia).
    assert (Hq : ∀ k : Z, (inject_Z k < inject_Z len / inject_Z s)%Q ↔ k * s < len).
    { intros k. split; intros H.
      - apply (Qmult_lt_r _ _ (inject_Z s) Hs') in H.
        assert (E : (inject_Z len / inject_Z s * inject_Z s == inject_Z len)%Q)
          by (field; intros E0; rewrite E0 in Hs'; apply (Qlt_irrefl 0), Hs').
        rewrite E, <- inject_Z_mult, <- Zlt_Qlt in H. exact H.
      - apply (Qmult_lt_r _ _ (inject_Z s) Hs').
        assert (E : (inject_Z len / inject_Z s * inject_Z s == inject_Z len)%Q)
          by (field; intros E0; rewrite E0 in Hs'; apply (Qlt_irrefl 0), Hs').
        rewrite E, <- inject_Z_mult. rewrite <- Zlt_Qlt. exact H. }
    assert (Hne : take (Z.to_nat s) (drop (Z.to_nat ((p - 1) * s)) sorted) ≠ []
                  ↔ (p - 1) * s < len).
    { split.
      - intros H. destruct (Z_lt_le_dec ((p - 1) * s) len) as [|Hge]; [assumption|].
        exfalso. apply H. rewrite drop_ge by lia. apply take_nil.
      - intros H E. apply (f_equal length) in E.
        rewrite length_take, length_drop in E. simpl in E. nia. }
    rewrite Hne, <- Hq. split; intros H.
    + apply Z.lt_pred_le. unfold Z.pred.
      rewrite Zlt_Qlt. eapply Qlt_le_trans; [exact H|apply Qle_ceiling].
    + eapply Qle_lt_trans; [|apply Qceiling_lt].
      rewrite <- Zle_Qle. lia.
Qed.

(** X4. A page number that is 0 or not a number, and a page size that is
    not a number, are answered like any other request, with status 200 and
    [success: true], and with no post. *)
Theorem posts_GET_outside_pages (query : Query) (posts : list Post) :
  let page := parseInt (param_or (query_page query) "1") in
  let pageSize := parseInt (param_or (query_pageSize query) "10") in
  page = None ∨ pageSize = None ∨ (page = Some 0 ∧ ∃ s, pageSize = Some s ∧ 0 <= s) →
  let answer := GET parseInt query posts in
  status answer.1 = 200 ∧ success answer.1 = true ∧ data answer.1 = Some [].
Proof.
  intros page pageSize Hout answer. split_and!; try reflexivity.
  subst answer. rewrite posts_GET_data. fold page pageSize. f_equal.
  destruct Hout as [-> | [-> | (-> & s & -> & Hs)]].
  - reflexivity.
  - destruct page; reflexivity.
  - simpl. unfold slice, relative_index.
    set (len := Z.of_nat (length _)).
    assert (Hlen : 0 <= len) by (subst len; lia).
    replace (0 - 1) with (-1) by lia.
    destruct (Z.ltb_spec (-1 * s) 0), (Z.ltb_spec (-1 * s + s) 0); try lia.
    + replace (Z.to_nat (Z.min (-1 * s + s) len - Z.max (len + -1 * s) 0)) with 0%nat
        by lia. reflexivity.
    + replace (Z.to_nat (Z.min (-1 * s + s) len - Z.min (-1 * s) len)) with 0%nat
        by lia. reflexivity.
Qed.

End PostsRouteFacts.

Lemma posts_GET_page_window_witness :
  ∃ page_data,
    Api.data (Api.Posts.GET Samples.parseInt Samples.second_page_of_eight
                Samples.twenty_posts).1 = Some page_data ∧
    length page_data = 8%nat.
Proof.
  destruct (posts_GET_page_window Samples.parseInt Samples.second_page_of_eight
              Samples.twenty_posts 2 8) as [Hdata _];
    [reflexivity | reflexivity | lia | lia |].
  eexists. split; [exact Hdata|]. vm_compute. reflexivity.
Defined.

Lemma posts_GET_totalPages_witness :
  ∃ n page_data,
    Api.Posts.totalPages (Api.Posts.GET Samples.parseInt Samples.third_page_of_eight
                            Samples.twenty_posts).2 = Fin (inject_Z n) ∧
    Api.data (Api.Posts.GET Samples.parseInt Samples.third_page_of_eight
                Samples.twenty_posts).1 = Some page_data ∧
    (page_data ≠ [] ↔ 3 <= n).
Proof.
  apply (posts_GET_totalPages Samples.parseInt Samples.third_page_of_eight
           Samples.twenty_posts 3 8); [reflexivity | reflexivity | lia | lia].
Defined.

Lemma posts_GET_outside_pages_witness :
  Api.data (Api.Posts.GET Samples.parseInt Samples.page_zero Samples.twenty_posts).1
    = Some [].
Proof.
  apply (posts_GET_outside_pages Samples.parseInt Samples.page_zero Samples.twenty_posts).
  right. right. split; [reflexivity|]. exists 10. split; [reflexivity | lia].
Defined.

(** The pages of eight of the twenty posts hold 8, 8 and 4 posts, a fourth
    page none; a negative page size makes [slice] count from the end, so
    that the "page" holds 15 posts. *)
Example posts_GET_page_lengths :
  let size page pageSize :=
    length <$> Api.data (Api.Posts.GET Samples.parseInt
                           (Api.Posts.mkQuery (Some page) (Some pageSize) None)
                           Samples.twenty_posts).1 in
  size "1" "8" = Some 8%nat ∧ size "2" "8" = Some 8%nat ∧
  size "3" "8" = Some 4%nat ∧ size "4" "8" = Some 0%nat ∧
  size "1" "-5" = Some 15%nat.
Proof. vm_compute. repeat split. Qed.

Section PostsCreateFacts.
Import Api Api.Posts.
Variable parseInt : string → option Z.
Variable clock : nat → Z.

(** X5. The list route answers every creation request. With a truthy
    title, content and author it answers 201 and appends one post, which
    carries the three submitted values, the id [post-] followed by the
    clock reading, and zero views and likes; a later listing reports one
    more post in total. Otherwise it answers 400 and the stored posts are
    those before the request. *)
Theorem posts_POST_creates_or_rejects (request : option Val) (w : World) :
  ∃ resp w', POST clock request w = (Ok resp, w') ∧
    ((complete request = false ∧
      status resp = 400 ∧ success resp = false ∧ posts w' = posts w) ∨
     (complete request = true ∧
      status resp = 201 ∧ success resp = true ∧
      ∃ p, posts w' = posts w ++ [p] ∧ data resp = Some p ∧
           post_id p = "post-" +:+ pretty (clock (ticks w)) ∧
           post_title p = field request "title" ∧
           post_content p = field request "content" ∧
           post_authorId p = field request "authorId" ∧
           post_views p = 0 ∧ post_likes p = 0 ∧
           ∀ query, total (GET parseInt query (posts w')).2
                    = total (GET parseInt query (posts w)).2 + 1)).
Proof.
  unfold POST, complete, field, Users.has_field, posts_push, Date_now.
  eff_unfold.
  destruct request as [body|]; simpl; [|eauto 10].
  destruct (get body "title") as [t|] eqn:Ht; simpl; [|eauto 10].
  destruct (get body "content") as [c|] eqn:Hc; simpl;
    [|destruct body; simpl in *; congruence].
  destruct (get body "authorId") as [a|] eqn:Ha; simpl;
    [|destruct body; simpl in *; congruence].
  destruct (truthy t); simpl; [|eauto 10].
  destruct (truthy c); simpl; [|eauto 10].
  destruct (truthy a); simpl; [|eauto 10].
  do 2 eexists. split; [reflexivity|]. right. simpl.
  split_and!; try reflexivity.
  eexists. split_and!; try reflexivity.
  intros query. unfold GET. simpl. rewrite length_app. simpl. lia.
Qed.

End PostsCreateFacts.

(** ** The route of one post *)

Section DetailRouteFacts.
Import Api Api.Detail.
Variable clock : nat → Z.

(** Every update request is answered, in one of three ways. *)
Lemma detail_PUT_cases (id : string) (request : option Val) (w : World) :
  ∃ resp w', PUT clock id request w = (Ok resp, w') ∧
    ((status resp = 400 ∧ posts w' = posts w ∧
      (request = None ∨ request = Some VNull ∨ request = Some VUndef)) ∨
     (status resp = 404 ∧ posts w' = posts w ∧ posts w !! id = None) ∨
     (status resp = 200 ∧
      ∃ body post title content,
        request = Some body ∧ posts w !! id = Some post ∧
        get body "title" = Some title ∧ get body "content" = Some content ∧
        let updated :=
          mkPost (post_id post)
                 (if truthy title then title else post_title post)
                 (if truthy content then content else post_content post)
                 (post_authorId post) (post_views post) (post_likes post)
                 (post_createdAt post) (clock (ticks w)) in
        data resp = Some updated ∧ posts w' = <[id := updated]> (posts w))).
Proof.
  unfold PUT, Date_now. eff_unfold.
  destruct request as [body|]; simpl; [|eauto 10].
  destruct (posts w !! id) as [post|] eqn:Hpost; simpl; [|eauto 10].
  destruct (get body "title") as [t|] eqn:Ht; simpl.
  - destruct (get body "content") as [c|] eqn:Hc; simpl;
      [|destruct body; simpl in *; congruence].
    do 2 eexists. split; [reflexivity|]. right. right.
    split; [reflexivity|]. exists body, post, t, c. cbv zeta.
    split_and!; first [reflexivity | assumption].
  - do 2 eexists. split; [reflexivity|]. left.
    split_and!; try reflexivity.
    destruct body; simpl in *; try congruence; auto.
Qed.

Lemma detail_step_lookup_None (op : Op) (w : World) (id : string) :
  posts w !! id = None → posts (step clock op w) !! id = None.
Proof.
  intros Hid. destruct op as [id'|id' request|id']; simpl.
  - exact Hid.
  - destruct (detail_PUT_cases id' request w) as (resp & w' & Hrun & Hcases).
    rewrite Hrun. simpl.
    destruct Hcases as [(_ & -> & _) | [(_ & -> & _) | (_ & body & post & t & c & _ & Hpost & _ & _ & _ & ->)]];
      try exact Hid.
    rewrite lookup_insert_ne; [exact Hid|]. intros ->. congruence.
  - unfold DELETE. destruct (posts w !! id') eqn:E; simpl; [|exact Hid].
    rewrite lookup_delete_ne; [exact Hid|].
    intros ->. congruence.
Qed.

Lemma detail_store_never_grows_aux (ops : list Op) (w : World) (id : string) :
  posts w !! id = None → status (GET id (posts (run clock ops w))) = 404.
Proof.
  intros Hid.
  assert (H : posts (run clock ops w) !! id = None).
  { revert w Hid. unfold run. induction ops as [|op ops IH]; intros w Hid; simpl.
    - exact Hid.
    - apply IH, detail_step_lookup_None, Hid. }
  unfold GET. rewrite H. reflexivity.
Qed.

(** X6. No request to the route of one post creates a post: an id the
    store does not hold is still not held after any sequence of reads,
    updates and deletions, and a read of it is answered 404. *)
Theorem detail_store_never_grows (ops : list Op) (w : World) (id : string) :
  posts w !! id = None →
  posts (run clock ops w) !! id = None ∧
  status (GET id (posts (run clock ops w))) = 404 ∧
  success (GET id (posts (run clock ops w))) = false.
Proof.
  intros Hid.
  assert (H : posts (run clock ops w) !! id = None).
  { revert w Hid. unfold run. induction ops as [|op ops IH]; intros w Hid; simpl.
    - exact Hid.
    - apply IH, detail_step_lookup_None, Hid. }
  split; [exact H|]. unfold GET. rewrite H. split; reflexivity.
Qed.

(** X8. An update of a stored post with a body that can be read answers
    200 and replaces the post in place: id, author, views, likes and
    creation time are the old ones, title and content are the submitted
    ones where these are truthy and the old ones otherwise, and the update
    time is the clock reading. A read of the id then returns the updated
    post, and every other id reads as before. *)
Theorem detail_PUT_updates_in_place
    (id : string) (body : Val) (w : World) (post : Post) (title content : Val) :
  posts w !! id = Some post →
  get body "title" = Some title →
  get body "content" = Some content →
  ∃ resp w' updated,
    PUT clock id (Some body) w = (Ok resp, w') ∧
    status resp = 200 ∧ data resp = Some updated ∧
    data (GET id (posts w')) = Some updated ∧
    post_id updated = post_id post ∧
    post_authorId updated = post_authorId post ∧
    post_views updated = post_views post ∧
    post_likes updated = post_likes post ∧
    post_createdAt updated = post_createdAt post ∧
    post_updatedAt updated = clock (ticks w) ∧
    post_title updated = (if truthy title then title else post_title post) ∧
    post_content updated = (if truthy content then content else post_content post) ∧
    ∀ other, other ≠ id → posts w' !! other = posts w !! other.
Proof.
  intros Hpost Ht Hc.
  unfold PUT, Date_now. eff_unfold. simpl. rewrite Hpost. simpl.
  rewrite Ht. simpl. rewrite Hc. simpl.
  do 3 eexists. split; [reflexivity|]. simpl.
  split_and!; try reflexivity.
  - unfold GET. rewrite lookup_insert_eq. reflexivity.
  - intros other Hne. rewrite lookup_insert_ne by congruence. reflexivity.
Qed.

(** X9. An update leaves the store as it was unless it answers 200: for an
    id that is not stored the answer is 404 when the body can be read, and
    for a body that does not parse or is [null] the answer is 400; neither
    creates the post. *)
Theorem detail_PUT_rejects_without_change
    (id : string) (request : option Val) (w : World) :
  ∃ resp w', PUT clock id request w = (Ok resp, w') ∧
    (status resp ≠ 200 → posts w' = posts w) ∧
    (posts w !! id = None → status resp ≠ 200 ∧ posts w' !! id = None) ∧
    (request = None → status resp = 400) ∧
    (∀ body, request = Some body → posts w !! id = None → status resp = 404).
Proof.
  destruct (detail_PUT_cases id request w) as (resp & w' & Hrun & Hcases).
  exists resp, w'. split; [exact Hrun|].
  destruct Hcases as [(Hs & Hp & Hreq) | [(Hs & Hp & Hnone) | (Hs & body & post & t & c & Hreq & Hpost & _)]].
  - split_and!; intros; try congruence.
    + split; [congruence|]. rewrite Hp. assumption.
    + subst request. exfalso.
      revert Hrun. unfold PUT. eff_unfold. simpl.
      match goal with H : posts w !! id = None |- _ => rewrite H end.
      simpl. intros [= <- _]. simpl in Hs. discriminate Hs.
  - split_and!; intros; try congruence.
    + split; [congruence|]. rewrite Hp. assumption.
    + subst request. exfalso.
      revert Hrun. unfold PUT. eff_unfold. simpl. intros [= <- _].
      simpl in Hs. discriminate Hs.
  - split_and!; intros; congruence.
Qed.

End DetailRouteFacts.

(** X10. A deletion answers 200 exactly when the id is stored. After it a
    read of the id is answered 404, a second deletion is answered 404 and
    changes nothing, and every other id reads as before. *)
Theorem detail_DELETE_once (id : string) (posts : gmap string Api.Post) :
  let first := Api.Detail.DELETE id posts in
  let second := Api.Detail.DELETE id first.2 in
  (Api.status first.1 = 200 ↔ is_Some (posts !! id)) ∧
  (Api.status first.1 = 200 ∨ (Api.status first.1 = 404 ∧ first.2 = posts)) ∧
  Api.status (Api.Detail.GET id first.2) = 404 ∧
  Api.status second.1 = 404 ∧ second.2 = first.2 ∧
  ∀ other, other ≠ id → first.2 !! other = posts !! other.
Proof.
  unfold Api.Detail.DELETE, Api.Detail.GET.
  destruct (posts !! id) as [post|] eqn:Hpost; simpl.
  - rewrite lookup_delete_eq. simpl.
    split_and!; auto.
    + split; [eauto | reflexivity].
    + intros other Hne. rewrite lookup_delete_ne by congruence. reflexivity.
  - rewrite Hpost. simpl. split_and!; auto.
    split; [discriminate | intros [? ?]; discriminate].
Qed.

Lemma detail_store_never_grows_witness :
  Api.status
    (Api.Detail.GET "post-99"
       (Api.Detail.posts
          (Api.Detail.run Samples.steady_clock
             [Api.Detail.OpPUT "post-99" Samples.retitle;
              Api.Detail.OpDELETE "post-1";
              Api.Detail.OpGET "post-99"]
             Samples.detail_store))) = 404.
Proof.
  apply (detail_store_never_grows Samples.steady_clock
           [Api.Detail.OpPUT "post-99" Samples.retitle;
            Api.Detail.OpDELETE "post-1";
            Api.Detail.OpGET "post-99"]
           Samples.detail_store "post-99").
  vm_compute. reflexivity.
Defined.

Lemma detail_PUT_updates_in_place_witness :
  ∃ resp w' updated,
    Api.Detail.PUT Samples.steady_clock "post-1" Samples.retitle Samples.detail_store
      = (Ok resp, w') ∧
    Api.status resp = 200 ∧ Api.data resp = Some updated ∧
    Api.post_title updated = VStr "New title" ∧
    Api.post_content updated =
      VStr (Api.Detail.detail_content 0).
Proof.
  destruct (detail_PUT_updates_in_place Samples.steady_clock "post-1"
              (VObj [("title", VStr "New title"); ("content", VStr "")])
              Samples.detail_store
              (Api.seed_post Samples.one_half Samples.steady_clock
                 Api.Detail.detail_content 0)
              (VStr "New title") (VStr ""))
    as (resp & w' & updated & Hrun & Hs & Hd & _ & _ & _ & _ & _ & _ & _ & Ht & Hc & _);
    [vm_compute; reflexivity | reflexivity | reflexivity |].
  exists resp, w', updated. split_and!; assumption.
Defined.

(** ** The two stores of posts *)

Section TwoStoresFacts.
Import Api.

Lemma foldl_insert_lookup_None (l : list Post) (m : gmap string Post) (k : string) :
  m !! k = None → Forall (λ p, post_id p ≠ k) l →
  foldl (λ m p, <[post_id p := p]> m) m l !! k = None.
Proof.
  revert m. induction l as [|p l IH]; intros m Hm Hl; simpl; [exact Hm|].
  apply Forall_cons in Hl. destruct Hl as [Hp Hl].
  apply IH; [|exact Hl]. rewrite lookup_insert_ne; assumption.
Qed.

(** The store of the route of one post holds the ids [post-1] to
    [post-20] and no other id made of [post-] and a number. *)
Lemma initial_posts_lookup_None (random : nat → Q) (clock : nat → Z) (t : Z) :
  ¬ (1 <= t <= 20) →
  Detail.initial_posts random clock !! ("post-" +:+ pretty t) = None.
Proof.
  intros Ht. unfold Detail.initial_posts.
  apply foldl_insert_lookup_None; [apply lookup_empty|].
  apply Forall_fmap, Forall_forall. intros i Hi. simpl.
  apply elem_of_seq in Hi. intros E.
  apply (inj (String.append "post-")) in E.
  apply (inj pretty) in E. lia.
Qed.

Lemma posts_POST_created_id (clock : nat → Z) (request : option Val)
    (w w' : Posts.World) (resp : Response Post) :
  Posts.POST clock request w = (Ok resp, w') → status resp = 201 →
  ∃ p, data resp = Some p ∧ post_id p = "post-" +:+ pretty (clock (Posts.ticks w)).
Proof.
  unfold Posts.POST, Posts.posts_push, Posts.Date_now. eff_unfold.
  repeat (simpl; destruct_atom); intros [= <- <-]; simpl; intros Hs;
    try discriminate Hs; eexists; split; reflexivity.
Qed.

(** X7. A post created through the list route is not found by the route
    of one post. The list route names the post [post-] followed by the
    clock reading; unless that reading is between 1 and 20, the other
    route, which keeps its own twenty posts [post-1] to [post-20], answers
    a read of that id with 404, whatever requests it has served before. *)
Theorem created_post_not_found
    (random : nat → Q) (load_clock list_clock detail_clock : nat → Z)
    (request : option Val) (lw lw' : Posts.World) (resp : Response Post)
    (ops : list Detail.Op) (n : nat) :
  ¬ (1 <= list_clock (Posts.ticks lw) <= 20) →
  Posts.POST list_clock request lw = (Ok resp, lw') →
  status resp = 201 →
  ∃ p, data resp = Some p ∧
       p ∈ Posts.posts lw' ∧
       status (Detail.GET (post_id p)
                 (Detail.posts
                    (Detail.run detail_clock ops
                       (Detail.mkWorld (Detail.initial_posts random load_clock) n))))
         = 404.
Proof.
  intros Ht Hrun Hs.
  destruct (posts_POST_created_id list_clock request lw lw' resp Hrun Hs)
    as (p & Hdata & Hid).
  exists p. split; [exact Hdata|]. split.
  - revert Hrun Hdata. unfold Posts.POST, Posts.posts_push, Posts.Date_now. eff_unfold.
    repeat (simpl; destruct_atom); intros [= <- <-]; simpl; intros [= <-];
      apply elem_of_app; right; apply list_elem_of_here.
  - rewrite Hid.
    apply (detail_store_never_grows_aux detail_clock ops).
    simpl. apply initial_posts_lookup_None, Ht.
Qed.

End TwoStoresFacts.

Lemma created_post_not_found_witness :
  ∃ resp lw' p,
    Api.Posts.POST Samples.steady_clock Samples.post_draft Samples.list_store
      = (Ok resp, lw') ∧
    Api.data resp = Some p ∧
    Api.status
      (Api.Detail.GET (Api.post_id p)
         (Api.Detail.posts
            (Api.Detail.run Samples.steady_clock
               [Api.Detail.OpPUT "post-1000" Samples.retitle]
               Samples.detail_store))) = 404.
Proof.
  pose (run := Api.Posts.POST Samples.steady_clock Samples.post_draft
                 Samples.list_store).
  pose (resp := match run.1 with
                | Ok r => r
                | Throw _ => Api.mkResponse 0 false None None
                end).
  destruct (created_post_not_found Samples.one_half Samples.steady_clock
              Samples.steady_clock Samples.steady_clock Samples.post_draft
              Samples.list_store run.2 resp
              [Api.Detail.OpPUT "post-1000" Samples.retitle] 0)
    as (p & Hdata & _ & Hgone);
    [intros [_ H]; vm_compute in H; apply H; reflexivity
    | reflexivity | reflexivity |].
  exists resp, run.2, p. split; [reflexivity|]. split; [exact Hdata | exact Hgone].
Defined.

(** ** The users route: searching *)

Lemma prefix_refl (s : string) : String.prefix s s = true.
Proof.
  induction s as [|c s IH]; simpl; [reflexivity|].
  destruct (Ascii.ascii_dec c c); [exact IH | congruence].
Qed.

Lemma includes_refl (s : string) : includes s s = true.
Proof.
  destruct s as [|c s]; [reflexivity|].
  change (includes (String c s) (String c s))
    with (String.prefix (String c s) (String c s) || includes s (String c s)).
  rewrite prefix_refl. reflexivity.
Qed.

Section UsersSearchFacts.
Import Api Api.Users.
Variable toLowerCase : string → string.
Variable clock : nat → Z.

(** A filter whose callback never throws returns the users it keeps. *)
Lemma filter_throwing_total (search : string) (us : list User) :
  Forall (λ u, ∃ n e, name u = VStr n ∧ email u = VStr e) us →
  ∃ found, filter_throwing (matches_search toLowerCase search) us = Some found ∧
           found `sublist_of` us ∧
           ∀ u, u ∈ us → matches_search toLowerCase search u = Some true → u ∈ found.
Proof.
  induction 1 as [|u us (n & e & Hn & He) _ (found & Hf & Hsub & Hin)]; simpl.
  - exists []. split_and!; [reflexivity | constructor |].
    intros u Hu. apply not_elem_of_nil in Hu. destruct Hu.
  - assert (Hm : ∃ keep, matches_search toLowerCase search u = Some keep).
    { unfold matches_search, lower. rewrite Hn, He.
      destruct (includes _ _); eauto. }
    destruct Hm as [keep Hm]. rewrite Hm, Hf.
    eexists. split; [reflexivity|]. split.
    + destruct keep; [apply sublist_skip | apply sublist_cons]; exact Hsub.
    + intros v Hv Hmv. apply elem_of_cons in Hv. destruct Hv as [->|Hv].
      * rewrite Hm in Hmv. injection Hmv as ->. apply list_elem_of_here.
      * destruct keep; [apply list_elem_of_further|]; apply Hin; assumption.
Qed.

(** X11. After a signup answered 201 whose name and email are strings, a
    search for the submitted email finds the new user, provided that the
    names and emails stored before are strings too: the search answers 200
    with a selection of the stored users, in their order, that contains
    the new user, and it does not change the stored users. *)
Theorem users_search_finds_signup
    (request : option Val) (w w' : World) (resp : Response User) (n e : string) :
  POST clock request w = (Ok resp, w') →
  status resp = 201 →
  Forall (λ u, ∃ n e, name u = VStr n ∧ email u = VStr e) (users w) →
  (request ≫= λ body, get body "name") = Some (VStr n) →
  submitted_email request = VStr e →
  ∃ answer found new,
    GET toLowerCase (Some e) w' = (Ok answer, w') ∧
    status answer = 200 ∧ data answer = Some found ∧
    found `sublist_of` users w' ∧
    data resp = Some new ∧ email new = VStr e ∧ new ∈ found.
Proof.
  intros Hrun Hs Hall Hname Hemail.
  destruct (users_POST_cases clock request w)
    as (resp0 & w0 & Hrun0 & Hcases).
  rewrite Hrun in Hrun0. injection Hrun0 as <- <-.
  destruct Hcases as [(H4 & _) | [(H4 & _) | (_ & _ & Hc & _ & new & Hu & Hd & He)]];
    try congruence.
  assert (Hnew_name : name new = VStr n).
  { revert Hrun Hd Hname. unfold POST, users_push, Date_now. eff_unfold.
    destruct request as [body|]; simpl; [|discriminate].
    intros Hrun Hd Hname. rewrite Hname in Hrun. simpl in Hrun.
    revert Hrun. repeat (simpl; destruct_atom); intros [= <- <-];
      simpl in Hd; try discriminate Hd; injection Hd as <-; reflexivity. }
  assert (Hne : negb (String.eqb e "") = true).
  { unfold complete in Hc. destruct request as [body|]; [|discriminate].
    apply andb_true_iff in Hc. destruct Hc as [_ Hc].
    unfold has_field in Hc. unfold submitted_email in Hemail. simpl in Hemail.
    destruct (get body "email") as [v|]; [|discriminate]. simpl in Hemail.
    subst v. exact Hc. }
  assert (Hall' : Forall (λ u, ∃ n e, name u = VStr n ∧ email u = VStr e) (users w')).
  { rewrite Hu. apply Forall_app. split; [exact Hall|].
    constructor; [|constructor]. exists n, e. split; [exact Hnew_name|].
    rewrite He. exact Hemail. }
  destruct (filter_throwing_total e (users w') Hall') as (found & Hf & Hsub & Hin).
  exists (mkResponse 200 true (Some found) None), found, new.
  split_and!; try reflexivity; try assumption.
  - unfold GET. eff_unfold. simpl. rewrite Hne, Hf. reflexivity.
  - congruence.
  - apply Hin.
    + rewrite Hu. apply elem_of_app. right. apply list_elem_of_here.
    + unfold matches_search, lower. rewrite Hnew_name.
      destruct (includes (toLowerCase n) (toLowerCase e)); [reflexivity|].
      rewrite He, Hemail. rewrite includes_refl. reflexivity.
Qed.

(** X12. The signup accepts a name that is not a string: any truthy name
    together with a truthy email that is not stored yet is answered 201.
    When that name is not a string, every later search with a non-empty
    term throws a [TypeError] instead of answering, while a request
    without a search term still lists all users. *)
Theorem users_search_throws_after_odd_signup
    (body odd_name new_email : Val) (w : World) (search : string) :
  get body "name" = Some odd_name →
  get body "email" = Some new_email →
  truthy odd_name = true → truthy new_email = true →
  (∀ s, odd_name ≠ VStr s) →
  email_taken (users w) new_email = false →
  search ≠ "" →
  ∃ resp w',
    POST clock (Some body) w = (Ok resp, w') ∧ status resp = 201 ∧
    (GET toLowerCase (Some search) w').1 = Throw "TypeError" ∧
    ∃ answer, (GET toLowerCase None w').1 = Ok answer ∧
              data answer = Some (users w').
Proof.
  intros Hn He Tn Te Hodd Hfree Hsearch.
  destruct (users_POST_cases clock (Some body) w)
    as (resp & w' & Hrun & Hcases).
  exists resp, w'. split; [exact Hrun|].
  destruct Hcases as [(_ & _ & _ & Hc) | [(_ & _ & _ & _ & Hd) | (Hs & _ & _ & _ & new & Hu & Hd & Hmail)]].
  - unfold complete, has_field in Hc. rewrite Hn, He, Tn, Te in Hc. discriminate Hc.
  - unfold submitted_email in Hd. simpl in Hd. rewrite He in Hd. simpl in Hd.
    congruence.
  - split; [exact Hs|].
    assert (Hnew_name : name new = odd_name).
    { revert Hrun Hd. unfold POST, users_push, Date_now. eff_unfold. simpl.
      rewrite Hn, He. simpl. rewrite Tn, Te. simpl. rewrite Hfree. simpl.
      repeat (simpl; destruct_atom); intros [= <- <-]; simpl; intros Hd;
        try discriminate Hd; injection Hd as <-; reflexivity. }
    assert (Hthrow : ∀ us, filter_throwing (matches_search toLowerCase search)
                             (us ++ [new]) = None).
    { induction us as [|u us IH]; simpl.
      - unfold matches_search, lower. rewrite Hnew_name.
        destruct odd_name; try reflexivity. destruct (Hodd s). reflexivity.
      - destruct (matches_search toLowerCase search u); [|reflexivity].
        rewrite IH. reflexivity. }
    split.
    + unfold GET. eff_unfold. simpl.
      destruct (String.eqb_spec search "") as [|_]; [contradiction|]. simpl.
      rewrite Hu, Hthrow. reflexivity.
    + eexists. unfold GET. eff_unfold. simpl. split; reflexivity.
Qed.

End UsersSearchFacts.

Lemma users_search_finds_signup_witness :
  let w' := (Api.Users.POST Samples.steady_clock Samples.fresh_signup
               Samples.one_user).2 in
  ∃ answer found,
    Api.Users.GET Samples.toLowerCase (Some "new@example.com") w' = (Ok answer, w') ∧
    Api.data answer = Some found ∧
    Api.Users.email <$> found = [VStr "new@example.com"].
Proof.
  pose (run := Api.Users.POST Samples.steady_clock Samples.fresh_signup
                 Samples.one_user).
  pose (resp := match run.1 with
                | Ok r => r
                | Throw _ => Api.mkResponse 0 false None None
                end).
  destruct (users_search_finds_signup Samples.toLowerCase Samples.steady_clock
              Samples.fresh_signup Samples.one_user run.2 resp
              "Someone" "new@example.com")
    as (answer & found & new & Hget & _ & Hdata & _);
    [reflexivity | reflexivity | | reflexivity | reflexivity |].
  - repeat constructor. eexists _, _. split; reflexivity.
  - exists answer, found. split; [exact Hget|]. split; [exact Hdata|].
    vm_compute in Hget. injection Hget as <-. vm_compute in Hdata.
    injection Hdata as <-. reflexivity.
Defined.

Lemma users_search_throws_after_odd_signup_witness :
  ∃ resp w',
    Api.Users.POST Samples.steady_clock Samples.numeric_name_signup Samples.one_user
      = (Ok resp, w') ∧
    Api.status resp = 201 ∧
    (Api.Users.GET Samples.toLowerCase (Some "test") w').1 = Throw "TypeError".
Proof.
  destruct (users_search_throws_after_odd_signup Samples.toLowerCase
              Samples.steady_clock
              (VObj [("name", VNum 5); ("email", VStr "five@example.com")])
              (VNum 5) (VStr "five@example.com") Samples.one_user "test")
    as (resp & w' & Hrun & Hs & Hthrow & _);
    try reflexivity; try discriminate.
  exists resp, w'. split_and!; assumption.
Defined.

(** ** [stress.js]: the load patterns and the advice *)

Lemma total_snoc (l : list Z) (x : Z) : total (l ++ [x]) = total l + x.
Proof.
  unfold total. induction l as [|y l IH]; simpl; [lia|]. rewrite IH. lia.
Qed.

Section StressPatternFacts.
Import Stress.
Variable clock : nat → Z.
Variable random : nat → Q.
Variable server : nat → Request → Response.
Variable toISOString : Z → string.
Variable BASE_URL : string.

Abbreviation run_pattern := (pattern clock random server toISOString BASE_URL).
Abbreviation run_patterns := (patterns clock random server toISOString BASE_URL).

(** What one pattern adds to the four metrics. *)
Lemma pattern_step (p : Pattern) (w : World) :
  ∃ w' e d,
    run_pattern p w = (Ok tt, w') ∧
    errorRate (registers w') = errorRate (registers w) ++ [e] ∧
    apiErrors (registers w') = apiErrors (registers w) ++ (if Z.eqb e 1 then [1] else []) ∧
    responseTime (registers w') = responseTime (registers w) ++ [d] ∧
    slowRequests (registers w') = slowRequests (registers w) ++ (if Z.gtb d 3000 then [1] else []) ∧
    (e = 0 ∨ e = 1).
Proof.
  destruct p; unfold pattern, mixed, readHeavy, writeHeavy, Date_now, Math_random,
    send, errorRate_add, apiErrors_add, slowRequests_add, responseTime_add;
    eff_unfold;
    repeat (simpl; destruct_atom);
    do 3 eexists; (split; [reflexivity|]); simpl;
    repeat match goal with H : _ = true |- _ => rewrite H | H : _ = false |- _ => rewrite H end;
    rewrite ?app_nil_r; split_and!; try reflexivity; auto;
    simpl; rewrite ?app_nil_r; reflexivity.
Qed.

(** X13. Whatever the load patterns run, in whatever order and against
    whatever answers, each of them adds exactly one observation to the
    error rate and one sample to the response-time trend; the api-errors
    counter grows by exactly the number of failures the error rate
    receives, and the slow-requests counter by the number of new samples
    above 3000 ms. *)
Theorem stress_patterns_counters (ps : list Pattern) (w : World) :
  ∃ w' observations samples,
    run_patterns ps w = (Ok tt, w') ∧
    errorRate (registers w') = errorRate (registers w) ++ observations ∧
    responseTime (registers w') = responseTime (registers w) ++ samples ∧
    length observations = length ps ∧ length samples = length ps ∧
    Forall (λ e, e = 0 ∨ e = 1) observations ∧
    total (apiErrors (registers w')) = total (apiErrors (registers w)) + total observations ∧
    total (slowRequests (registers w'))
      = total (slowRequests (registers w))
        + Z.of_nat (length (filter (λ d, 3000 < d) samples)).
Proof.
  revert w. induction ps as [|p ps IH]; intros w.
  - exists w, [], []. rewrite !app_nil_r. simpl.
    split_and!; try reflexivity; [constructor | unfold total; simpl; lia | lia].
  - destruct (pattern_step p w) as (w1 & e & d & Hrun & He & Ha & Hd & Hs & Hbit).
    destruct (IH w1) as (w' & obs & smp & Hrun' & He' & Hd' & Hlo & Hls & Hall & Ha' & Hs').
    exists w', (e :: obs), (d :: smp).
    split.
    { unfold patterns in *. simpl. unfold mbind, eff_mbind, eff_bind.
      rewrite Hrun. exact Hrun'. }
    rewrite He', He, Hd', Hd, Ha', Ha, Hs', Hs, <- !app_assoc. simpl.
    split_and!; try reflexivity; try lia.
    + constructor; assumption.
    + destruct Hbit as [-> | ->]; simpl; rewrite ?app_nil_r, ?total_snoc;
        unfold total; simpl; lia.
    + rewrite filter_cons. destruct (Z.gtb_spec d 3000) as [Hgt|Hle].
      * rewrite decide_True by lia. rewrite total_snoc. simpl length. lia.
      * rewrite decide_False by lia. rewrite app_nil_r. lia.
Qed.

End StressPatternFacts.

(** Two reads against a target that k6 times at 3500 ms while the script's
    clock advances 4000 ms per reading: both count as failures although
    the status is 200, and both as slow. *)
Example stress_slow_answers_are_failures :
  let w' := (Stress.patterns Samples.coarse_clock Samples.zero Samples.slow_ok
               Samples.toISOString Samples.base_url
               [Stress.ReadHeavy; Stress.WriteHeavy] Samples.stress_fresh).2 in
  Stress.errorRate (Stress.registers w') = [1; 1] ∧
  Stress.apiErrors (Stress.registers w') = [1; 1] ∧
  Stress.slowRequests (Stress.registers w') = [1; 1] ∧
  Stress.responseTime (Stress.registers w') = [4000; 4000].
Proof. vm_compute. repeat split. Qed.

(** X14. The stress advice is the fixed pair of closing lines exactly when
    none of its four conditions holds, and the array then is empty;
    otherwise it is the array joined by line feeds, and the array holds at
    least three lines. *)
Theorem stress_advice_closing_pair_iff (metrics : Stress.Metrics) (status : Stress.Status) :
  (Stress.advice_due metrics status = false ↔ Stress.recommendations metrics status = []) ∧
  (Stress.advice_due metrics status = false →
     Stress.generateRecommendations metrics status =
       "• System performed well under stress" +:+ nl +:+
       "• Consider current configuration adequate") ∧
  (Stress.advice_due metrics status = true →
     Stress.generateRecommendations metrics status
       = join nl (Stress.recommendations metrics status) ∧
     (3 <= length (Stress.recommendations metrics status))%nat).
Proof.
  unfold Stress.advice_due, Stress.generateRecommendations, Stress.recommendations.
  destruct (gtb (Stress.http_req_failed_rate metrics) (1 # 10));
  destruct (gtb (Stress.http_req_duration_p95 metrics) 3000);
  destruct (bool_decide (status = Stress.CRITICAL));
  destruct (bool_decide (status = Stress.DEGRADED));
  destruct (match Stress.slow_requests_count metrics with
            | Some c => gtb c 100
            | None => false
            end);
  simpl; split_and!; try (split; discriminate); try discriminate;
    try reflexivity; try (intros _; split; [reflexivity | lia]);
    try (split; reflexivity).
Qed.

(** A run whose only finding is a 99th percentile above ten seconds is
    given the status WARNING and the closing pair of lines. *)
Example stress_warning_with_closing_pair :
  let s := Stress.handleSummary Samples.slow_tail in
  Stress.summary_status s = Stress.WARNING ∧
  Stress.summary_recommendations s =
    "• System performed well under stress" +:+ nl +:+
    "• Consider current configuration adequate".
Proof. vm_compute. split; reflexivity. Qed.

(** ** [spike.js]: a run of iterations *)

Section SpikeRunFacts.
Import Spike.

Variable clock : nat → Z.
Variable random : nat → Q.
Variable server : nat → Request → Response.
Variable show_number : Q → string.
Variable toISOString : Z → string.
Variable BASE_URL : string.

Abbreviation iteration :=
  (default_function clock random server show_number toISOString BASE_URL).

Lemma at_index_elem_of (postIds : list string) (i : Z) (id : string) :
  at_index postIds i = Some id → id ∈ postIds.
Proof.
  unfold at_index. destruct (Z.ltb i 0); [discriminate|].
  intros H. eapply list_elem_of_lookup_2. exact H.
Qed.

Lemma map_set_keys_incl {V} (k k' : string) (v : V) (m : list (string * V)) :
  k' ∈ map_keys m → k' ∈ map_keys (map_set k v m).
Proof.
  rewrite map_set_keys. destruct (bool_decide _); [auto|].
  intros H. apply elem_of_app. left. exact H.
Qed.

(** The integrity check keeps every created post, only adds to the
    verified set, and adds only an id it drew from the created posts. *)
Lemma verify_evolves (w w' : World) (r : Res unit) :
  verifyDataIntegrity random server BASE_URL w = (r, w') → evolves w w'.
Proof.
  unfold Spike.verifyDataIntegrity, Math_random, http_get, send, JSON_parse,
         dataIntegrity_add, evolves.
  eff_unfold.
  repeat (simpl; destruct_atom);
    intros H; apply pair_equal_spec in H as [<- <-]; simpl; split_and!; auto;
    try reflexivity; try apply union_subseteq_r.
  intros id' Hin. apply elem_of_union in Hin. destruct Hin as [Hin|Hin]; [|auto].
  apply elem_of_singleton in Hin. subst id'. right.
  eapply at_index_elem_of. eassumption.
Qed.

Lemma readSpike_frame (w w' : World) (r : Res unit) :
  readSpike server BASE_URL w = (r, w') →
  r = Ok tt ∧ testData w' = testData w ∧
  recoveryTime (registers w') = recoveryTime (registers w) ∧
  dataIntegrity (registers w') = dataIntegrity (registers w) ∧
  ticks w' = ticks w.
Proof.
  unfold readSpike. cbv [for_each].
  unfold http_get, send, spikeErrors_add, errorRate_add.
  eff_unfold.
  repeat (simpl; destruct_atom);
    intros H; apply pair_equal_spec in H as [<- <-]; simpl; repeat split.
Qed.

Lemma writeSpike_frame (w w' : World) (r : Res unit) :
  writeSpike clock random server show_number toISOString BASE_URL w = (r, w') →
  r = Ok tt ∧
  (∀ id, id ∈ map_keys (createdPosts (testData w)) →
         id ∈ map_keys (createdPosts (testData w'))) ∧
  verifiedPosts (testData w') = verifiedPosts (testData w) ∧
  startTime (testData w') = startTime (testData w) ∧
  spikeStartTime (testData w') = spikeStartTime (testData w) ∧
  recoveryStartTime (testData w') = recoveryStartTime (testData w) ∧
  recoveryTime (registers w') = recoveryTime (registers w) ∧
  dataIntegrity (registers w') = dataIntegrity (registers w).
Proof.
  unfold writeSpike, Date_now, Math_random, http_post, send, JSON_parse,
         spikeErrors_add, errorRate_add.
  eff_unfold.
  repeat (simpl; destruct_atom);
    intros H; apply pair_equal_spec in H as [<- <-]; simpl; split_and!; auto.
  intros id'. apply map_set_keys_incl.
Qed.

Lemma measureRecovery_frame (w w' : World) (r : Res bool) :
  measureRecovery clock server BASE_URL w = (r, w') →
  (∃ recovered, r = Ok recovered) ∧ testData w' = testData w ∧
  dataIntegrity (registers w') = dataIntegrity (registers w).
Proof.
  unfold measureRecovery, Date_now, http_get, send, recoveryTime_add.
  eff_unfold.
  repeat (simpl; destruct_atom);
    intros H; apply pair_equal_spec in H as [<- <-]; simpl; split_and!; eauto.
Qed.

#[local] Arguments Spike.verifyDataIntegrity : simpl never.
#[local] Arguments Spike.readSpike : simpl never.
#[local] Arguments Spike.writeSpike : simpl never.
#[local] Arguments Spike.measureRecovery : simpl never.
#[local] Arguments Spike.is_set : simpl never.

Ltac use_frame :=
  match goal with
  | H : Spike.verifyDataIntegrity _ _ _ _ = _ |- _ =>
      let E := fresh "Hev" in
      pose proof (verify_evolves _ _ _ H) as E;
      apply verify_frame in H;
      destruct H as (-> & ? & ? & ? & ? & ? & ? & ? & ?)
  | H : Spike.readSpike _ _ _ = _ |- _ =>
      apply readSpike_frame in H; destruct H as (-> & ? & ? & ? & ?)
  | H : Spike.writeSpike _ _ _ _ _ _ _ = _ |- _ =>
      apply writeSpike_frame in H; destruct H as (-> & ? & ? & ? & ? & ? & ? & ?)
  | H : Spike.measureRecovery _ _ _ _ = _ |- _ =>
      apply measureRecovery_frame in H; destruct H as ((? & ->) & ? & ?)
  end.

Lemma iteration_step (currentVUs : Z) (w : World) :
  ∃ w', iteration currentVUs w = (Ok tt, w') ∧
        evolves w w' ∧
        (coherent w → coherent w') ∧
        startTime (testData w') = startTime (testData w).
Proof.
  unfold default_function, getCurrentStage, Date_now, Math_random, sleep,
         http_get, send.
  eff_unfold.
  repeat (simpl; first [use_frame | destruct_atom]).
  all: eexists; (split; [reflexivity|]).
  all: unfold evolves, coherent in *; simpl in *.
  all: repeat match goal with
       | H : testData _ = _ |- _ => rewrite !H in *; clear H
       | H : createdPosts _ = _ |- _ => rewrite !H in *; clear H
       | H : verifiedPosts _ = _ |- _ => rewrite !H in *; clear H
       | H : startTime _ = _ |- _ => rewrite !H in *; clear H
       | H : spikeStartTime (testData ?w) = _ |- _ => is_var w; rewrite !H in *; clear H
       | H : recoveryStartTime (testData ?w) = _ |- _ => is_var w; rewrite !H in *; clear H
       end.
  all: simpl in *.
  all: repeat match goal with H : _ ∧ _ |- _ => destruct H end.
  all: split_and!; try congruence; try reflexivity; try solve [auto].
  all: try (intros Hc Hr;
            destruct (is_set (spikeStartTime (testData w))) eqn:?,
                     (is_set (recoveryStartTime (testData w))) eqn:?;
            simpl in *; try congruence; auto;
            specialize (Hc eq_refl); discriminate).
Qed.


(** X16. A recovery is timed only after a spike was seen: if that holds
    before a run of iterations, it holds after it. *)
Theorem spike_run_coherent (vus : list Z) (w : World) :
  coherent w →
  ∃ w', iterations clock random server show_number toISOString BASE_URL vus w
          = (Ok tt, w') ∧
        coherent w'.
Proof.
  revert w. induction vus as [|currentVUs vus IH]; intros w Hco.
  - exists w. split; [reflexivity | exact Hco].
  - destruct (iteration_step currentVUs w) as (w1 & Hstep & _ & Hco1 & _).
    destruct (IH w1 (Hco1 Hco)) as (w' & Hrun & Hco').
    exists w'. split; [|exact Hco'].
    unfold iterations in *. simpl. unfold mbind, eff_mbind, eff_bind.
    rewrite Hstep. exact Hrun.
Qed.

(** X17. An iteration during a spike (more than 100 virtual users) stamps
    the start of the spike when none is recorded and keeps a recorded one;
    it never touches the start of a recovery nor the recovery-time
    register, so a second spike during a recovery does not restart the
    recovery clock. *)
Theorem spike_iteration_stamps_once (currentVUs : Z) (w : World) :
  100 < currentVUs →
  ∃ w', iteration currentVUs w = (Ok tt, w') ∧
        spikeStartTime (testData w') =
          (if is_set (spikeStartTime (testData w)) then spikeStartTime (testData w)
           else Some (clock (S (ticks w)))) ∧
        recoveryStartTime (testData w') = recoveryStartTime (testData w) ∧
        recoveryTime (registers w') = recoveryTime (registers w).
Proof.
  intros Hvu.
  assert (Hgt : Z.gtb currentVUs 100 = true) by lia.
  unfold default_function, getCurrentStage, Date_now, Math_random, sleep.
  eff_unfold.
  simpl. destruct (startTime (testData w)); simpl; rewrite Hgt; simpl.
  all: repeat (simpl; first [use_frame | destruct_atom]).
  all: eexists; (split; [reflexivity|]); simpl in *.
  all: repeat match goal with
       | H : testData _ = _ |- _ => rewrite !H in *; clear H
       | H : spikeStartTime (testData ?w) = _ |- _ => is_var w; rewrite !H in *; clear H
       | H : recoveryStartTime (testData ?w) = _ |- _ => is_var w; rewrite !H in *; clear H
       | H : recoveryTime (registers ?w) = _ |- _ => is_var w; rewrite !H in *; clear H
       end.
  all: simpl.
  all: destruct (is_set (spikeStartTime (testData w))); simpl in *;
       try discriminate; split_and!; reflexivity.
Qed.

(** X18. While a recovery is being timed, a probe that is answered with
    a status other than 200, or not within 500 ms, leaves the run in the
    recovery: both timestamps and the recovery-time register are as
    before, however long ago the recovery began. *)
Theorem recovery_waits_for_responsive_probe
    (currentVUs : Z) (w : World) (t_recovery : Z) :
  currentVUs <= 100 →
  recoveryStartTime (testData w) = Some t_recovery →
  t_recovery ≠ 0 →
  let probe := server (requests w) (mkRequest "GET" (BASE_URL +:+ "/api/health") None) in
  status probe ≠ 200 ∨ (500 <= timings_duration probe)%Q →
  ∃ w', iteration currentVUs w = (Ok tt, w') ∧
        recoveryTime (registers w') = recoveryTime (registers w) ∧
        spikeStartTime (testData w') = spikeStartTime (testData w) ∧
        recoveryStartTime (testData w') = Some t_recovery.
Proof.
  intros Hvu Hr Hnz probe Hprobe.
  assert (Hgt : Z.gtb currentVUs 100 = false) by lia.
  assert (Hset : is_set (Some t_recovery) = true).
  { unfold is_set. destruct (Z.eqb_spec t_recovery 0); [contradiction|reflexivity]. }
  assert (Hno : Z.eqb (status probe) 200 && ltb (timings_duration probe) 500 = false).
  { destruct Hprobe as [Hs|Hd].
    - apply Z.eqb_neq in Hs. rewrite Hs. reflexivity.
    - apply ltb_false in Hd. rewrite Hd. apply andb_false_r. }
  unfold default_function, getCurrentStage, Date_now, Math_random, sleep,
         http_get, send.
  unfold Spike.measureRecovery, Date_now, http_get, send, recoveryTime_add.
  eff_unfold.
  simpl. destruct (startTime (testData w)) as [t0|]; simpl; rewrite Hgt; simpl;
    rewrite Hr, Hset, andb_false_r; simpl; rewrite Hr, Hset; simpl.
  all: fold probe; rewrite Hno; simpl.
  all: destruct (ltb (random (draws w)) (2 # 10)); simpl;
    [|eexists; split; [reflexivity|]; simpl; repeat split; assumption].
  all: match goal with
       | |- context [Spike.verifyDataIntegrity _ _ _ ?W] =>
           destruct (Spike.verifyDataIntegrity random server BASE_URL W)
             as [r w1] eqn:Hv;
           apply verify_frame in Hv;
           destruct Hv as (-> & Hrt & _ & _ & _ & _ & Hss & Hrs & _)
       end.
  all: eexists; split; [reflexivity|]; simpl; rewrite Hrt, Hss, Hrs; simpl;
    repeat split; assumption.
Qed.

Lemma minutes_ltb (elapsed a : Z) (b : positive) :
  ltb (inject_Z elapsed / 60000) (a # b) = Z.ltb (elapsed * Z.pos b) (a * 60000).
Proof.
  destruct (Z.ltb_spec (elapsed * Z.pos b) (a * 60000)) as [H|H].
  - apply ltb_spec. apply Qlt_shift_div_r; [reflexivity|].
    unfold Qlt, Qmult, inject_Z. simpl. lia.
  - apply ltb_false. apply Qle_shift_div_l; [reflexivity|].
    unfold Qle, Qmult, inject_Z. simpl. lia.
Qed.

Lemma length_filter_cons {A} (P : A → Prop) `{!∀ x, Decision (P x)} (x : A) (l : list A) :
  length (filter P (x :: l)) = ((if decide (P x) then 1 else 0) + length (filter P l))%nat.
Proof. rewrite filter_cons. destruct (decide (P x)); reflexivity. Qed.

(** X19. The stage name follows the plan of [options.stages]: with the
    start time set, [getCurrentStage] returns the name, in the order of
    the plan, of the first stage that has not ended at the elapsed time,
    and the name of the last stage once all have ended. *)
Theorem stage_name_follows_plan (w : World) (start : Z) :
  startTime (testData w) = Some start →
  (getCurrentStage clock w).1 =
    Ok (default "stabilization"
          (stage_names !! stages_ended stages (clock (ticks w) - start))).
Proof.
  intros Hs. unfold getCurrentStage, Date_now. eff_unfold. simpl.
  rewrite Hs. simpl.
  set (elapsed := clock (ticks w) - start). clearbody elapsed.
  unfold stage_names.
  generalize "warmup" "spike1_ramp" "spike1_peak" "spike1_recovery" "normal1"
             "spike2_ramp" "spike2_peak" "spike2_recovery" "stabilization".
  intros n1 n2 n3 n4 n5 n6 n7 n8 n9.
  change 1%Q with (1 # 1); change 4%Q with (4 # 1); change 6%Q with (6 # 1);
    change 8%Q with (8 # 1).
  rewrite !minutes_ltb.
  unfold stages_ended, stages. cbn [stage_ends].
  rewrite !length_filter_cons, filter_nil.
  assert (Hcases :
    elapsed < 60000 ∨ 60000 <= elapsed < 90000 ∨ 90000 <= elapsed < 210000 ∨
    210000 <= elapsed < 240000 ∨ 240000 <= elapsed < 360000 ∨
    360000 <= elapsed < 390000 ∨ 390000 <= elapsed < 450000 ∨
    450000 <= elapsed < 480000 ∨ 480000 <= elapsed < 600000 ∨
    600000 <= elapsed) by lia.
  repeat destruct Hcases as [Hcases|Hcases].
  all: repeat first [ rewrite decide_True by lia | rewrite decide_False by lia ].
  all: repeat match goal with
       | |- context [Z.ltb ?a ?b] =>
           first [ rewrite (proj2 (Z.ltb_lt a b)) by lia
                 | rewrite (proj2 (Z.ltb_ge a b)) by lia ]
       end.
  all: reflexivity.
Qed.
End SpikeRunFacts.

(** ** [spike.js]: the integrity check and the report *)


Section SpikeCheckFacts.
Import Spike.

Variable random : nat → Q.
Variable server : nat → Request → Response.
Variable BASE_URL : string.

End SpikeCheckFacts.

Section SpikeReportFacts.
Import Spike.

(** X21. An integrity rate of zero, the rate of a run in which no check
    passed, is read by [handleSummary] as if the metric were missing: the
    analysis calls the integrity perfect and the advice has none of the
    integrity lines. *)
Theorem spike_zero_integrity_reads_perfect (metrics : Metrics) (rate : Q) :
  data_integrity_rate metrics = Some rate →
  (rate == 0)%Q →
  ("✅ Perfect data integrity maintained" ∈ handleSummary_analysis metrics) ∧
  ("⚠️ Data integrity concerns detected" ∉ handleSummary_analysis metrics) ∧
  ("• Review transaction handling during high load" ∉ handleSummary_advice metrics).
Proof.
  intros Hrate Hzero. apply Qeq_bool_iff in Hzero.
  unfold handleSummary_analysis, handleSummary_advice, analysis, recommendations.
  rewrite Hrate. cbn [num_or]. rewrite Hzero.
  change (gtb 1 (99 # 100)) with true. change (ltb 1 (99 # 100)) with false.
  cbv iota.
  split_and!.
  - apply elem_of_app. right. apply list_elem_of_here.
  - repeat destruct_atom; simpl;
      repeat (apply not_elem_of_cons; split; [discriminate|]);
      apply not_elem_of_nil.
  - repeat destruct_atom; simpl;
      repeat (apply not_elem_of_cons; split; [discriminate|]);
      apply not_elem_of_nil.
Qed.
End SpikeReportFacts.

(** ** [soak.js]: the run and the advice *)

Lemma map_delete_set {V} (k : string) (v : V) (m : list (string * V)) :
  map_delete k (map_set k v m) = map_delete k m.
Proof.
  induction m as [|[k' v'] m IH]; simpl.
  - rewrite String.eqb_refl. reflexivity.
  - destruct (String.eqb k k') eqn:E; simpl; rewrite ?String.eqb_refl, ?E;
      [reflexivity | rewrite IH; reflexivity].
Qed.

Lemma num_ltb_not_gtb (x : Num) (c : Q) : num_ltb x c = true → num_gtb x c = false.
Proof.
  destruct x as [q| | |]; simpl; try discriminate; try reflexivity.
  intros H. apply ltb_spec in H. apply gtb_false. apply Qlt_le_weak. exact H.
Qed.

(** A quotient with numerator zero is not above a positive bound. *)
Lemma div_zero_not_above (a b c : Q) : (a == 0)%Q → (0 < c)%Q → num_gtb (div a b) c = false.
Proof.
  intros Ha Hc. unfold div.
  assert (L1 : ltb 0 a = false) by (apply ltb_false; rewrite Ha; apply Qle_refl).
  assert (L2 : ltb a 0 = false) by (apply ltb_false; rewrite Ha; apply Qle_refl).
  rewrite L1, L2. destruct (Qeq_bool b 0); simpl; [reflexivity|].
  apply gtb_false. unfold Qdiv. rewrite Ha, Qmult_0_l. apply Qlt_le_weak. exact Hc.
Qed.

Section SoakFurtherFacts.
Import Soak.

Variable clock : nat → Z.
Variable server : nat → string → Response.
Variable BASE_URL : string.

Abbreviation run_call := (call clock server BASE_URL).
Abbreviation run_trace := (trace clock server BASE_URL).

Ltac soak_unfold :=
  unfold call, resourceIntensiveTask, monitorSystemHealth,
         trackPerformanceDegradation, Date_now, http_get, resourceLeaks_add,
         memoryTrend_add, currentMemory_add, degradationRate_add,
         cache_of, baseline_responseTime, baseline_memory in *;
  eff_unfold.

Lemma checkpoints_extend_refl (w : World) : checkpoints_extend w w.
Proof.
  split; [auto|]. intros minute Hnone [cp Hsome]. congruence.
Qed.

Lemma call_checkpoints (c : Call) (w w' : World) :
  run_call c w = (Ok tt, w') → checkpoints_extend w w'.
Proof.
  destruct c; soak_unfold; simpl;
    repeat (destruct_atom; simpl);
    intros H; apply pair_equal_spec in H as [_ <-];
    unfold checkpoints_extend; simpl;
    try solve [split; [auto | intros minute Hnone [cp Hsome]; congruence]].
  all: match goal with
       | Hc : _ && bool_decide _ = true |- _ =>
           apply andb_true_iff in Hc; destruct Hc as [Hrem Hfree];
           apply Z.eqb_eq in Hrem; apply bool_decide_eq_true_1 in Hfree
       end.
  all: split.
  all: try (intros minute cp Hcp; rewrite lookup_insert_ne; [exact Hcp|];
            intros <-; simpl in *; congruence).
  all: intros minute Hnone Hsome;
       match goal with
       | _ : Z.rem ?m 10 = 0 |- _ =>
           destruct (decide (m = minute)) as [<-|Hne];
           [assumption | rewrite lookup_insert_ne in Hsome by exact Hne]
       end;
       destruct Hsome as [cp Hcp]; simpl in *; congruence.
Qed.

(** X22. Along a run, whatever the calls, the clock and the target's
    answers, a checkpoint once written is never changed or removed, and a
    checkpoint is only ever written for a minute that is a multiple of
    ten. *)
Theorem soak_checkpoints_written_once (cs : list Call) (w : World) :
  Forall (λ w', checkpoints_extend w w') (run_trace cs w).
Proof.
  apply (trace_invariant clock server BASE_URL (λ w', checkpoints_extend w w')).
  - intros c w0 w1 [Hkeep Hnew] Hc.
    destruct (call_checkpoints c w0 w1 Hc) as [Hkeep' Hnew'].
    split.
    + auto.
    + intros minute Hnone Hsome.
      destruct (checkpoints (testState w0) !! minute) as [cp|] eqn:E.
      * apply (Hnew minute Hnone). eauto.
      * apply (Hnew' minute E Hsome).
  - apply checkpoints_extend_refl.
Qed.

Lemma call_active_requests (c : Call) (w w' : World) :
  run_call c w = (Ok tt, w') →
  ∃ taskId,
    activeRequests (resourceMonitor (testState w')) =
      map_delete taskId (activeRequests (resourceMonitor (testState w))) ∨
    activeRequests (resourceMonitor (testState w')) =
      activeRequests (resourceMonitor (testState w)).
Proof.
  destruct c; soak_unfold; simpl;
    repeat (destruct_atom; simpl);
    intros H; apply pair_equal_spec in H as [_ <-]; simpl;
    eexists; first [right; reflexivity | left; apply map_delete_set].
  Unshelve. all: exact EmptyString.
Qed.

(** X23. A task removes its own entry from the active requests before it
    returns, on every path: along a run that starts with no active
    request there is none after any call. *)
Theorem soak_active_requests_cleared (cs : list Call) (w : World) :
  activeRequests (resourceMonitor (testState w)) = [] →
  Forall (λ w', activeRequests (resourceMonitor (testState w')) = [])
    (run_trace cs w).
Proof.
  intros Hw.
  apply (trace_invariant clock server BASE_URL
           (λ w', activeRequests (resourceMonitor (testState w')) = [])); [|exact Hw].
  intros c w0 w1 H0 Hc.
  destruct (call_active_requests c w0 w1 Hc) as (taskId & [H|H]);
    rewrite H, H0; reflexivity.
Qed.

(** X24. The performance check that sets the response-time baseline, the
    first of a run or one that finds a stored baseline of zero, never
    counts as degraded, whatever response time it measures: it adds the
    sample 0 to the degradation rate. *)
Theorem baseline_check_never_degraded (w : World) :
  unset_Z (baseline_responseTime w) = true →
  ∃ w', trackPerformanceDegradation clock server BASE_URL w = (Ok tt, w') ∧
        degradationRate (registers w') = degradationRate (registers w) ++ [0] ∧
        baseline_responseTime w' = Some (clock (S (ticks w)) - clock (ticks w)).
Proof.
  intros Hunset. soak_unfold. simpl. rewrite Hunset. simpl.
  rewrite Z.sub_diag.
  rewrite div_zero_not_above by (reflexivity || (unfold Qlt; simpl; lia)).
  simpl.
  repeat (destruct_atom; simpl); eexists; (split; [reflexivity|]); simpl;
    split; reflexivity.
Qed.

(** X25. The health check that sets the memory baseline never reports a
    leak, however long the run has lasted; like every health check it
    never throws. *)
Theorem baseline_health_check_reports_no_leak (w : World) :
  unset_Q (baseline_memory w) = true →
  ∃ w', monitorSystemHealth clock server BASE_URL w = (Ok tt, w') ∧
        resourceLeaks (registers w') = resourceLeaks (registers w).
Proof.
  intros Hunset. soak_unfold. simpl.
  destruct (Z.eqb _ 200); simpl; [|eexists; split; reflexivity].
  destruct (health _) as [h|]; simpl; [|eexists; split; reflexivity].
  destruct (heapUsed h) as [heap|]; simpl; [|eexists; split; reflexivity].
  destruct (negb (Qeq_bool heap 0)); simpl; [|eexists; split; reflexivity].
  rewrite Hunset. simpl.
  rewrite div_zero_not_above; [| ring | reflexivity].
  eexists; split; reflexivity.
Qed.
End SoakFurtherFacts.

Section SoakAdviceFacts.
Import Soak.

(** X26. An assessment whose verdict is EXCELLENT comes with no memory
    and no degradation advice: when in addition at most 10 leak events
    were counted and the 99th percentile is at most 5000 ms, the advice
    is the closing block of three lines. *)
Theorem soak_excellent_gets_closing_advice
    (metrics : Metrics) (memoryGrowth degradationRate leaks duration : Q) :
  verdict (assessment metrics memoryGrowth degradationRate duration) = Some excellent →
  (leaks <= 10)%Q →
  (http_req_duration_p99 metrics <= 5000)%Q →
  recommendations metrics memoryGrowth degradationRate leaks duration =
    ["• System shows excellent long-term stability";
     "• Continue monitoring in production";
     "• Consider increasing load for next test iteration"].
Proof.
  unfold verdict, assessment, recommendations. cbv zeta. cbn [last].
  intros Hverdict Hleaks Hp99.
  destruct (num_ltb (Soak.memoryGrowthPerHour memoryGrowth duration) 10) eqn:Hm;
    [|cbn [andb] in Hverdict; destruct (_ && _ && _) in Hverdict; cbv in Hverdict; discriminate Hverdict].
  destruct (ltb degradationRate (5 # 100)) eqn:Hd;
    [|cbn [andb] in Hverdict; destruct (_ && _ && _) in Hverdict; cbv in Hverdict; discriminate Hverdict].
  rewrite (num_ltb_not_gtb _ _ Hm).
  apply gtb_false in Hleaks, Hp99. rewrite Hleaks, Hp99.
  assert (Hd' : gtb degradationRate (10 # 100) = false).
  { apply gtb_false. apply ltb_spec in Hd. apply Qlt_le_weak.
    eapply Qlt_trans; [exact Hd|]. reflexivity. }
  rewrite Hd'. reflexivity.
Qed.
End SoakAdviceFacts.

(** ** Instances *)

Lemma spike_run_coherent_witness :
  ∃ w', Spike.iterations Samples.nine_seconds_in Samples.one_half Samples.plain_ok
          Samples.show_number Samples.toISOString Samples.base_url
          [10; 300; 10] Samples.recovering = (Ok tt, w') ∧
        Spike.coherent w'.
Proof.
  apply (spike_run_coherent Samples.nine_seconds_in Samples.one_half Samples.plain_ok
           Samples.show_number Samples.toISOString Samples.base_url
           [10; 300; 10] Samples.recovering).
  intros _. reflexivity.
Defined.

Lemma spike_iteration_stamps_once_witness :
  ∃ w', Spike.default_function Samples.one_cycle Samples.one_half Samples.plain_ok
          Samples.show_number Samples.toISOString Samples.base_url
          300 Samples.fresh = (Ok tt, w') ∧
        Spike.spikeStartTime (Spike.testData w') = Some 2000 ∧
        Spike.recoveryStartTime (Spike.testData w') = None ∧
        Spike.recoveryTime (Spike.registers w') = [].
Proof.
  apply (spike_iteration_stamps_once Samples.one_cycle Samples.one_half
           Samples.plain_ok Samples.show_number Samples.toISOString
           Samples.base_url 300 Samples.fresh).
  lia.
Defined.

Lemma recovery_waits_for_responsive_probe_witness :
  ∃ w', Spike.default_function Samples.nine_seconds_in Samples.one_half
          Samples.sluggish Samples.show_number Samples.toISOString
          Samples.base_url 10 Samples.recovering = (Ok tt, w') ∧
        Spike.recoveryTime (Spike.registers w') = [] ∧
        Spike.spikeStartTime (Spike.testData w') = Some 61000 ∧
        Spike.recoveryStartTime (Spike.testData w') = Some 241000.
Proof.
  apply (recovery_waits_for_responsive_probe Samples.nine_seconds_in
           Samples.one_half Samples.sluggish Samples.show_number
           Samples.toISOString Samples.base_url 10 Samples.recovering 241000).
  - lia.
  - reflexivity.
  - lia.
  - right. unfold Qle. simpl. lia.
Defined.

Lemma stage_name_follows_plan_witness :
  (Spike.getCurrentStage Samples.nine_seconds_in Samples.recovering).1 = Ok "normal1".
Proof.
  apply (stage_name_follows_plan Samples.nine_seconds_in Samples.recovering 1000).
  reflexivity.
Defined.


Lemma spike_zero_integrity_reads_perfect_witness :
  ("✅ Perfect data integrity maintained"
     ∈ Spike.handleSummary_analysis Samples.no_check_passed) ∧
  ("⚠️ Data integrity concerns detected"
     ∉ Spike.handleSummary_analysis Samples.no_check_passed) ∧
  ("• Review transaction handling during high load"
     ∉ Spike.handleSummary_advice Samples.no_check_passed).
Proof.
  apply (spike_zero_integrity_reads_perfect Samples.no_check_passed 0);
    reflexivity.
Defined.

Lemma soak_active_requests_cleared_witness :
  Forall (λ w', Soak.activeRequests (Soak.resourceMonitor (Soak.testState w')) = [])
    (Soak.trace Samples.instant_then_slow Samples.healthy Samples.base_url
       [Soak.CallResourceIntensiveTask; Soak.CallTrackPerformanceDegradation]
       (Soak.initial_world 1000)).
Proof.
  apply (soak_active_requests_cleared Samples.instant_then_slow Samples.healthy
           Samples.base_url
           [Soak.CallResourceIntensiveTask; Soak.CallTrackPerformanceDegradation]
           (Soak.initial_world 1000)).
  reflexivity.
Defined.

Lemma baseline_check_never_degraded_witness :
  ∃ w', Soak.trackPerformanceDegradation Samples.coarse_clock Samples.healthy
          Samples.base_url (Soak.initial_world 0) = (Ok tt, w') ∧
        Soak.degradationRate (Soak.registers w') = [0] ∧
        Soak.baseline_responseTime w' = Some 4000.
Proof.
  apply (baseline_check_never_degraded Samples.coarse_clock Samples.healthy
           Samples.base_url (Soak.initial_world 0)).
  reflexivity.
Defined.

Lemma baseline_health_check_reports_no_leak_witness :
  ∃ w', Soak.monitorSystemHealth Samples.coarse_clock Samples.healthy
          Samples.base_url (Soak.initial_world 0) = (Ok tt, w') ∧
        Soak.resourceLeaks (Soak.registers w') = [].
Proof.
  apply (baseline_health_check_reports_no_leak Samples.coarse_clock Samples.healthy
           Samples.base_url (Soak.initial_world 0)).
  reflexivity.
Defined.

Lemma soak_excellent_gets_closing_advice_witness :
  Soak.recommendations Samples.flat_memory 0 0 0 120 =
    ["• System shows excellent long-term stability";
     "• Continue monitoring in production";
     "• Consider increasing load for next test iteration"].
Proof.
  apply (soak_excellent_gets_closing_advice Samples.flat_memory 0 0 0 120).
  - vm_compute. reflexivity.
  - unfold Qle. simpl. lia.
  - unfold Qle. simpl. lia.
Defined.


Lemma recovery_transition_witness :
  ∃ w', Spike.default_function Samples.nine_seconds_in Samples.one_half
          Samples.plain_ok Samples.show_number Samples.toISOString
          Samples.base_url 10 Samples.recovering = (Ok tt, w') ∧
        Spike.recoveryTime (Spike.registers w') = [] ++ [250020 - 250000] ∧
        Spike.spikeStartTime (Spike.testData w') = None ∧
        Spike.recoveryStartTime (Spike.testData w') = None.
Proof.
  apply (recovery_transition Samples.nine_seconds_in Samples.one_half
           Samples.plain_ok Samples.show_number Samples.toISOString
           Samples.base_url 10 Samples.recovering 61000 241000).
  - lia.
  - reflexivity.
  - reflexivity.
  - lia.
  - reflexivity.
  - reflexivity.
  - vm_compute. reflexivity.
Defined.

Lemma recovery_pending_probe_witness :
  ∃ w', Spike.default_function Samples.two_seconds_in Samples.one_half
          Samples.plain_ok Samples.show_number Samples.toISOString
          Samples.base_url 10 Samples.recovering = (Ok tt, w') ∧
        Spike.recoveryTime (Spike.registers w') = [] ++ [243020 - 243000] ∧
        Spike.spikeStartTime (Spike.testData w') = Some 61000 ∧
        Spike.recoveryStartTime (Spike.testData w') = Some 241000.
Proof.
  apply (recovery_pending_probe Samples.two_seconds_in Samples.one_half
           Samples.plain_ok Samples.show_number Samples.toISOString
           Samples.base_url 10 Samples.recovering 61000 241000).
  - lia.
  - reflexivity.
  - reflexivity.
  - lia.
  - reflexivity.
  - reflexivity.
  - vm_compute. discriminate.
Defined.

